(** * holdem: hand ranking and exhaustive equity, embedded from cards.go

    The Go types [Hand] (uint64), [Card], [Suit], [Face] (uint8) are carried
    by [Z]; every arithmetic operation of the source that can wrap is written
    with its modulus ([uint8], [uint32], [uint64]).  [float64] results of
    [Compare] are carried by [Q]: the functions are embedded in exact
    arithmetic. *)

From Stdlib Require Import ZArith String List Bool Lia QArith Qfield.
Import ListNotations.

Local Open Scope Z_scope.

(** ** Machine integers *)

Definition uint8 (z : Z) : Z := z mod 256.
Definition uint32 (z : Z) : Z := z mod 2 ^ 32.
Definition uint64 (z : Z) : Z := z mod 2 ^ 64.

Definition Hand := Z.
Definition Card := Z.
Definition Suit := Z.
Definition Face := Z.

Definition NUM_CARDS : Z := 52.

(** ** Loop ranges

    [for f := Face(0); f < 13; f++] visits [faces];
    [for f := Face(12); f <= 12; f--] visits [faces_desc]: after [f = 0] the
    decrement wraps to 255 and the test [f <= 12] ends the loop;
    [for s := Suit(0); s < 4; s++] visits [suits];
    [for c := firstCard; c < NUM_CARDS; c++] visits [cards_from firstCard]. *)

Definition faces : list Face := [0; 1; 2; 3; 4; 5; 6; 7; 8; 9; 10; 11; 12].
Definition faces_desc : list Face := [12; 11; 10; 9; 8; 7; 6; 5; 4; 3; 2; 1; 0].
Definition suits : list Suit := [0; 1; 2; 3].

Definition cards_from (firstCard : Card) : list Card :=
  map Z.of_nat (seq (Z.to_nat firstCard) (Z.to_nat NUM_CARDS - Z.to_nat firstCard)).

(** ** Card/Hand model *)

(** [1 << c] is a shift of a [Hand]-typed one: bits shifted past position 63
    are lost. *)
Definition bit (c : Card) : Hand := uint64 (Z.shiftl 1 c).

Definition HasCard (h : Hand) (c : Card) : bool :=
  negb (Z.land h (bit c) =? 0).

Definition CardSuit (c : Card) : Suit := c / 13.
Definition CardFace (c : Card) : Face := c mod 13.

Definition ToCard (f : Face) (s : Suit) : Card := uint8 (uint8 (s * 13) + f).

Definition AddCard (h : Hand) (c : Card) : Hand := Z.lor h (bit c).

Definition CreateHand (cards : list Card) : Hand :=
  fold_left AddCard cards 0.

Definition NumCards (h : Hand) : Z :=
  fold_left (fun result c => if HasCard h c then uint8 (result + 1) else result)
            (cards_from 0) 0.

Definition Combine (h1 h2 : Hand) : Hand := Z.lor h1 h2.

(** ** Slices of small integers

    [fc[f]] reads a slice; [result[f]++] updates it in place.  Every slice of
    the program is made with a fixed length (13 or 4) and indexed by a value
    below that length, so no access of the source is out of range; outside
    the range [idx] reads 0 and [incr] leaves the slice as it is. *)

Definition idx (xs : list Z) (i : Z) : Z := nth (Z.to_nat i) xs 0.

Fixpoint upd (xs : list Z) (i : nat) (v : Z) : list Z :=
  match xs, i with
  | [], _ => []
  | _ :: xs', O => v :: xs'
  | x :: xs', S i' => x :: upd xs' i' v
  end.

Definition set_idx (xs : list Z) (i : Z) (v : Z) : list Z := upd xs (Z.to_nat i) v.

Definition incr (xs : list Z) (i : Z) : list Z := set_idx xs i (uint8 (idx xs i + 1)).

(** ** Face tally *)

(** Body of the outer loop of [FaceCounts]: the suit loop at face [f]. *)
Definition FaceCounts_step (h : Hand) (result : list Z) (f : Face) : list Z :=
  fold_left (fun result s => if HasCard h (ToCard f s) then incr result f else result)
            suits result.

Definition FaceCounts (h : Hand) : list Z :=
  fold_left (FaceCounts_step h) faces (repeat 0 13).

(** ** Category scorers *)

(** Inner loop of [straightFlushScore] for one suit: [Some v] is the early
    [return v], [None] is the loop running to its end. *)
Fixpoint straightFlush_suit (h : Hand) (s : Suit) (fs : list Face) (runLength : Z)
  : option Face :=
  match fs with
  | [] => None
  | f :: fs' =>
      if HasCard h (ToCard f s) then
        let runLength := runLength + 1 in
        if runLength =? 5 then Some (uint8 (f + 1))
        else straightFlush_suit h s fs' runLength
      else straightFlush_suit h s fs' 0
  end.

Fixpoint straightFlush_suits (h : Hand) (ss : list Suit) : Face :=
  match ss with
  | [] => 0
  | s :: ss' =>
      match straightFlush_suit h s faces 0 with
      | Some v => v
      | None => straightFlush_suits h ss'
      end
  end.

Definition straightFlushScore (h : Hand) : Face := straightFlush_suits h suits.

Fixpoint flush_loop (h : Hand) (cs : list Card) (SuitCount SuitMax : list Z) : Face :=
  match cs with
  | [] => 0
  | c :: cs' =>
      if HasCard h c then
        let s := CardSuit c in
        let f := CardFace c in
        let SuitCount := incr SuitCount s in
        let SuitMax :=
          if idx SuitMax s <? uint8 (f + 1) then set_idx SuitMax s (uint8 (f + 1))
          else SuitMax in
        if idx SuitCount s =? 5 then idx SuitMax s
        else flush_loop h cs' SuitCount SuitMax
      else flush_loop h cs' SuitCount SuitMax
  end.

Definition flushScore (h : Hand) : Face :=
  flush_loop h (cards_from 0) (repeat 0 4) (repeat 0 4).

(** Outcome of the suit loop of [straightScore] at one face. *)
Inductive suit_scan : Type :=
| Return (v : Face)
| Found (runLength : Z) (max : Face)
| NotFound.

Fixpoint straight_suits (h : Hand) (f : Face) (ss : list Suit) (runLength : Z) (max : Face)
  : suit_scan :=
  match ss with
  | [] => NotFound
  | s :: ss' =>
      if HasCard h (ToCard f s) then
        let max := if runLength =? 0 then uint8 (f + 1) else max in
        let runLength := runLength + 1 in
        if runLength =? 5 then Return max else Found runLength max
      else straight_suits h f ss' runLength max
  end.

Fixpoint straight_loop (h : Hand) (fs : list Face) (runLength : Z) (max : Face) : Face :=
  match fs with
  | [] => 0
  | f :: fs' =>
      match straight_suits h f suits runLength max with
      | Return v => v
      | Found runLength max => straight_loop h fs' runLength max
      | NotFound => straight_loop h fs' 0 0
      end
  end.

Definition straightScore (h : Hand) : Face := straight_loop h faces_desc 0 0.

Fixpoint fourKind_loop (fc : list Z) (fs : list Face) : Face :=
  match fs with
  | [] => 0
  | f :: fs' => if idx fc f =? 4 then uint8 (f + 1) else fourKind_loop fc fs'
  end.

Definition fourKindScore (fc : list Z) : Face := fourKind_loop fc faces_desc.

Definition fullHouse_step (fc : list Z) (st : Face * bool) (f : Face) : Face * bool :=
  let '(max, hasTwo) := st in
  let hasTwo := if idx fc f =? 2 then true else hasTwo in
  let max := if (idx fc f =? 3) && (max <? f) then uint8 (f + 1) else max in
  (max, hasTwo).

Definition fullHouseScore (fc : list Z) : Face :=
  let '(max, hasTwo) := fold_left (fullHouse_step fc) faces (0, false) in
  if hasTwo then max else 0.

Definition threeKind_step (fc : list Z) (max : Face) (f : Face) : Face :=
  if (idx fc f =? 3) && (max <? f) then uint8 (f + 1) else max.

Definition threeKindScore (fc : list Z) : Face :=
  fold_left (threeKind_step fc) faces 0.

Definition twoPair_step (fc : list Z) (st : Face * Z) (f : Face) : Face * Z :=
  let '(max, pairCount) := st in
  if idx fc f =? 2 then
    (if max <? uint8 (f + 1) then uint8 (f + 1) else max, pairCount + 1)
  else (max, pairCount).

Definition twoPairScore (fc : list Z) : Face :=
  let '(max, pairCount) := fold_left (twoPair_step fc) faces (0, 0) in
  if 2 <=? pairCount then max else 0.

Definition pair_step (fc : list Z) (max : Face) (f : Face) : Face :=
  if (idx fc f =? 2) && (max <? uint8 (f + 1)) then uint8 (f + 1) else max.

Definition pairScore (fc : list Z) : Face :=
  fold_left (pair_step fc) faces 0.

Fixpoint highCard_loop (fc : list Z) (fs : list Face) : Face :=
  match fs with
  | [] => 0
  | f :: fs' => if idx fc f =? 1 then uint8 (f + 1) else highCard_loop fc fs'
  end.

Definition highCardScore (fc : list Z) : Face := highCard_loop fc faces_desc.

(** ** Composite ranker *)

Definition Score (h : Hand) : Z :=
  let s := straightFlushScore h in
  if s =? 0 then
    let fc := FaceCounts h in
    let s := fourKindScore fc in
    if s =? 0 then
      let s := fullHouseScore fc in
      if s =? 0 then
        let s := flushScore h in
        if s =? 0 then
          let s := straightScore h in
          if s =? 0 then
            let s := threeKindScore fc in
            if s =? 0 then
              let s := twoPairScore fc in
              if s =? 0 then
                let s := pairScore fc in
                if s =? 0 then uint32 (highCardScore fc)
                else uint32 (uint32 s + 13)
              else uint32 (uint32 s + 2 * 13)
            else uint32 (uint32 s + 3 * 13)
          else uint32 (uint32 s + 4 * 13)
        else uint32 (uint32 s + 5 * 13)
      else uint32 (uint32 s + 6 * 13)
    else uint32 (uint32 s + 7 * 13)
  else uint32 (uint32 s + 8 * 13).

Definition Describe (h : Hand) : string :=
  let fc := FaceCounts h in
  if straightFlushScore h =? 13 then "royal flush"%string
  else if negb (straightFlushScore h =? 0) then "straight flush"%string
  else if negb (fullHouseScore fc =? 0) then "full house"%string
  else if negb (flushScore h =? 0) then "flush"%string
  else if negb (threeKindScore fc =? 0) then "three of a kind"%string
  else if negb (twoPairScore fc =? 0) then "two pairs"%string
  else if negb (pairScore fc =? 0) then "pair"%string
  else "high Card"%string.

(** ** Equity solver *)

Definition free (h1 h2 : Hand) (c : Card) : bool :=
  negb (HasCard h1 c) && negb (HasCard h2 c).

(** Body of a candidate loop of [_compare]: [sub c] is the recursive call
    made for candidate [c]; the state is [(ch, nc)]. *)
Definition draw_step (h1 h2 : Hand) (sub : Card -> Q) (st : Q * Z) (c : Card) : Q * Z :=
  let '(ch, nc) := st in
  if free h1 h2 c then ((ch + sub c)%Q, nc + 1) else (ch, nc).

Definition draw_loop (h1 h2 : Hand) (sub : Card -> Q) (cs : list Card) : Q * Z :=
  fold_left (draw_step h1 h2 sub) cs (0%Q, 0).

(** The [uint8] parameter [lookahead] only reaches zero by repeated
    decrement, so it is carried as a [nat]. *)
Fixpoint _compare (h1 : Hand) (l1 : Z) (h2 : Hand) (l2 : Z) (firstCard : Card)
         (lookahead : nat) : Q :=
  match lookahead with
  | O =>
      let s1 := Score h1 in
      let s2 := Score h2 in
      if s2 <? s1 then 1%Q
      else if s1 <? s2 then 0%Q
      else (1 # 2)%Q
  | S lookahead' =>
      let '(ch, nc) :=
        if l1 <? l2 then
          draw_loop h1 h2
            (fun c => _compare (AddCard h1 c) (uint8 (l1 + 1)) h2 l2
                               (uint8 (c + 1)) lookahead')
            (cards_from firstCard)
        else if l2 <? l1 then
          draw_loop h1 h2
            (fun c => _compare h1 l1 (AddCard h2 c) (uint8 (l2 + 1))
                               (uint8 (c + 1)) lookahead')
            (cards_from firstCard)
        else
          draw_loop h1 h2
            (fun c => _compare (AddCard h1 c) (uint8 (l1 + 1))
                               (AddCard h2 c) (uint8 (l2 + 1))
                               (uint8 (c + 1)) lookahead')
            (cards_from firstCard)
      in
      if nc =? 0 then (1 # 2)%Q else (ch / inject_Z nc)%Q
  end.

Definition Compare (h1 h2 : Hand) (lookahead : Z) : Q :=
  let l1 := NumCards h1 in
  let l2 := NumCards h2 in
  let s :=
    if l2 <? l1 then uint8 (lookahead - l2)
    else if l1 <? l2 then uint8 (lookahead - l1)
    else uint8 (lookahead - l1) in
  _compare h1 l1 h2 l2 0 (Z.to_nat s).

(** * Notions used to state the properties *)

(** ** Tallies and sums *)

(** Number of suits in which face [f] is present. *)
Definition tally (h : Hand) (f : Face) : Z :=
  fold_right (fun s n => Z.b2z (HasCard h (ToCard f s)) + n) 0 suits.

Definition sumZ (xs : list Z) : Z := fold_right Z.add 0 xs.

(** ** Ranges *)

Definition is_face (f : Face) : Prop := 0 <= f <= 12.
Definition is_score (v : Face) : Prop := 0 <= v <= 13.

(** ** Tiers of the composite rank *)

Inductive category : Type :=
| StraightFlush | FourKind | FullHouse | Flush | Straight
| ThreeKind | TwoPair | Pair | HighCard.

(** Tier [t] holds the ranks [13 * t + 1 .. 13 * t + 13]; rank 0 is the
    high-card scorer's sentinel. *)
Definition tier_of_rank (r : Z) : category :=
  if 104 <? r then StraightFlush
  else if 91 <? r then FourKind
  else if 78 <? r then FullHouse
  else if 65 <? r then Flush
  else if 52 <? r then Straight
  else if 39 <? r then ThreeKind
  else if 26 <? r then TwoPair
  else if 13 <? r then Pair
  else HighCard.

(** The scorers in the order of the specification, each with its tier
    number. *)
Definition scorers (h : Hand) : list (Face * Z) :=
  let fc := FaceCounts h in
  [ (straightFlushScore h, 8); (fourKindScore fc, 7); (fullHouseScore fc, 6);
    (flushScore h, 5); (straightScore h, 4); (threeKindScore fc, 3);
    (twoPairScore fc, 2); (pairScore fc, 1); (highCardScore fc, 0) ].

Definition first_nonzero (rs : list (Face * Z)) : option (Face * Z) :=
  find (fun r => negb (fst r =? 0)) rs.

(** The rank as the specification words it; when every scorer is absent the
    rank is the sentinel 0. *)
Definition Rank_spec (h : Hand) : Z :=
  match first_nonzero (scorers h) with
  | Some (s, t) => s + 13 * t
  | None => 0
  end.

(** ** Sample hands *)

Definition royal_spades : Hand := CreateHand [8; 9; 10; 11; 12].
Definition four_aces_king : Hand := CreateHand [12; 25; 38; 51; 11].
Definition four_twos : Hand := CreateHand [0; 13; 26; 39].
Definition rainbow_straight : Hand := CreateHand [0; 14; 28; 42; 4].
Definition wheel : Hand := CreateHand [12; 13; 27; 41; 3].
Definition twos_full_of_threes : Hand := CreateHand [0; 13; 26; 1; 14].
Definition kings_full_with_straight_flush : Hand :=
  CreateHand [11; 24; 37; 10; 23; 7; 8; 9].
Definition ace_spades : Hand := CreateHand [12].
Definition kings_full_of_queens : Hand := CreateHand [11; 24; 37; 10; 23].
Definition full_deck : Hand := CreateHand (cards_from 0).
Definition three_kings : Hand := CreateHand [11; 24; 37].

(** ** A call of [Compare] seen from its caller *)

Inductive outcome (A : Type) : Type :=
| Returned (v : A)
| InvalidArgument.
Arguments Returned {A} v.
Arguments InvalidArgument {A}.

(** [Compare] has a single [float64] result; neither it nor any function
    it calls has a failing path: no test on [lookahead], no slice access
    out of range, no division by a zero [nc]. *)
Definition Compare_call (h1 h2 : Hand) (lookahead : Z) : outcome Q :=
  Returned (Compare h1 h2 lookahead).

(** ** Straights, as the specification words them *)

(** A face is hit when some suit holds it. *)
Definition hit (h : Hand) (f : Face) : bool :=
  existsb (fun s => HasCard h (ToCard f s)) suits.

(** The face loop of [straightScore] over the hits alone. *)
Fixpoint straight_scan (hitf : Face -> bool) (fs : list Face) (runLength : Z) (max : Face)
  : Face :=
  match fs with
  | [] => 0
  | f :: fs' =>
      if hitf f then
        let max := if runLength =? 0 then uint8 (f + 1) else max in
        if runLength + 1 =? 5 then max
        else straight_scan hitf fs' (runLength + 1) max
      else straight_scan hitf fs' 0 0
  end.

(** Five faces in sequence, from [hi] down. *)
Definition run5 (hitf : Face -> bool) (hi : Face) : bool :=
  forallb hitf [hi; hi - 1; hi - 2; hi - 3; hi - 4].

(** The faces at which a run of five can start, scanning down from the
    ace. *)
Definition run_tops : list Face := [12; 11; 10; 9; 8; 7; 6; 5; 4].

Definition highest_run (hitf : Face -> bool) : Face :=
  match find (run5 hitf) run_tops with
  | Some hi => hi + 1
  | None => 0
  end.

(** The only five faces in sequence are A, 2, 3, 4, 5. *)
Definition wheel_only (hitf : Face -> bool) : bool :=
  forallb hitf [12; 0; 1; 2; 3] && forallb (fun hi => negb (run5 hitf hi)) run_tops.

(** [p] holds of every list of [n] booleans. *)
Fixpoint all_bools (n : nat) (p : list bool -> bool) : bool :=
  match n with
  | O => p []
  | S n' => all_bools n' (fun bs => p (true :: bs)) && all_bools n' (fun bs => p (false :: bs))
  end.

Definition hits_of (bs : list bool) (f : Face) : bool := nth (Z.to_nat f) bs false.

Definition straight_check (bs : list bool) : bool :=
  (straight_scan (hits_of bs) faces_desc 0 0 =? highest_run (hits_of bs))
  && (negb (wheel_only (hits_of bs)) || (straight_scan (hits_of bs) faces_desc 0 0 =? 0)).

(** ** Faces of a given tally *)

(** [v] is one more than the highest face of tally [k], or 0 when no face
    has tally [k]. *)
Definition highest_with (fc : list Z) (k : Z) (v : Face) : Prop :=
  (v = 0 /\ forall f, is_face f -> idx fc f <> k) \/
  (is_face (v - 1) /\ idx fc (v - 1) = k /\
   forall f, is_face f -> v - 1 < f -> idx fc f <> k).

(** Number of faces of tally [k]. *)
Definition count_with (fc : list Z) (k : Z) : Z :=
  Z.of_nat (length (filter (fun f => idx fc f =? k) faces)).

Fixpoint descending (fs : list Z) : bool :=
  match fs with
  | a :: (b :: _) as t => (b <? a) && descending t
  | _ => true
  end.

Fixpoint ascending (fs : list Z) : bool :=
  match fs with
  | a :: (b :: _) as t => (a <? b) && ascending t
  | _ => true
  end.

(** ** Straight flushes and flushes, suit by suit *)

(** The hand holds face [f] in suit [s]. *)
Definition held (h : Hand) (s : Suit) (f : Face) : bool := HasCard h (ToCard f s).

(** The suit loop of [straightFlushScore] over the held faces alone. *)
Fixpoint run_scan (p : Face -> bool) (fs : list Face) (runLength : Z) : option Face :=
  match fs with
  | [] => None
  | f :: fs' =>
      if p f then
        if runLength + 1 =? 5 then Some (uint8 (f + 1))
        else run_scan p fs' (runLength + 1)
      else run_scan p fs' 0
  end.

(** The faces at which a run of five can end, from the lowest. *)
Definition run_tops_asc : list Face := [4; 5; 6; 7; 8; 9; 10; 11; 12].

(** One more than the top of the lowest run of five held faces. *)
Definition lowest_run (p : Face -> bool) : option Face :=
  option_map (fun hi => hi + 1) (find (run5 p) run_tops_asc).

(** The first suit, in the order of [suits], that has a result. *)
Fixpoint first_suit (r : Suit -> option Face) (ss : list Suit) : Face :=
  match ss with
  | [] => 0
  | s :: ss' =>
      match r s with
      | Some v => v
      | None => first_suit r ss'
      end
  end.

Definition same_result (a b : option Z) : bool :=
  match a, b with
  | Some x, Some y => x =? y
  | None, None => true
  | _, _ => false
  end.

Definition run_check (bs : list bool) : bool :=
  same_result (run_scan (hits_of bs) faces 0) (lowest_run (hits_of bs)).

(** The part of the card loop of [flushScore] that concerns one suit, over
    the held faces alone: [count] and [max] are the suit's entries of
    [SuitCount] and [SuitMax]. *)
Fixpoint flush_scan (p : Face -> bool) (fs : list Face) (count max : Z) : option Face :=
  match fs with
  | [] => None
  | f :: fs' =>
      if p f then
        let count := uint8 (count + 1) in
        let max := if max <? uint8 (f + 1) then uint8 (f + 1) else max in
        if count =? 5 then Some max else flush_scan p fs' count max
      else flush_scan p fs' count max
  end.

(** One more than the fifth held face, counting from the lowest. *)
Definition fifth_lowest (p : Face -> bool) : option Face :=
  option_map (fun f => f + 1) (nth_error (filter p faces) 4).

Definition flush_check (bs : list bool) : bool :=
  same_result (flush_scan (hits_of bs) faces 0 0) (fifth_lowest (hits_of bs)).

(** The cards of suit [s] for the faces [fs], as [flushScore] meets them. *)
Definition suit_cards (s : Suit) (fs : list Face) : list Card :=
  map (fun f => s * 13 + f) fs.

(** ** Labels of [Describe] *)

(** The label [Describe] has for a category; it has none for four of a kind
    and none for a straight.  [royal] tells the top straight flush apart. *)
Definition label (c : category) (royal : bool) : option string :=
  match c with
  | StraightFlush => Some (if royal then "royal flush" else "straight flush")%string
  | FourKind => None
  | FullHouse => Some "full house"%string
  | Flush => Some "flush"%string
  | Straight => None
  | ThreeKind => Some "three of a kind"%string
  | TwoPair => Some "two pairs"%string
  | Pair => Some "pair"%string
  | HighCard => Some "high Card"%string
  end.

(** ** Random hands

    [RandomHand] draws from the pseudo-random source until the hand holds
    [size] cards.  The source is carried as the list [draws] of the values
    that the successive calls of [rand.Int31n(NUM_CARDS)] return; [None]
    means that the loop is still running when the list is used up. *)

Fixpoint RandomHand_loop (draws : list Z) (size : Z) (h : Hand) : option Hand :=
  if NumCards h <? size then
    match draws with
    | [] => None
    | r :: draws' => RandomHand_loop draws' size (AddCard h (uint8 r))
    end
  else Some h.

Definition RandomHand (draws : list Z) (size : Z) : option Hand :=
  RandomHand_loop draws size 0.

(** * Properties *)

(** ** Machine integers and bits *)

Lemma uint8_small (z : Z) : 0 <= z < 256 -> uint8 z = z.
Proof. intros H. unfold uint8. apply Z.mod_small. exact H. Qed.

Lemma uint8_range (z : Z) : 0 <= uint8 z < 256.
Proof. unfold uint8. apply Z.mod_pos_bound. lia. Qed.

Lemma uint32_small (z : Z) : 0 <= z < 2 ^ 32 -> uint32 z = z.
Proof. intros H. unfold uint32. apply Z.mod_small. exact H. Qed.

Lemma bit_pow2 (c : Card) : 0 <= c < 64 -> bit c = 2 ^ c.
Proof.
  intros Hc. unfold bit, uint64. rewrite Z.shiftl_1_l.
  apply Z.mod_small. split.
  - apply Z.pow_nonneg. lia.
  - apply Z.pow_lt_mono_r; lia.
Qed.

(** Below position 64, [HasCard] reads the bit of the register. *)
Lemma HasCard_testbit (h : Hand) (c : Card) :
  0 <= c < 64 -> HasCard h c = Z.testbit h c.
Proof.
  intros Hc. unfold HasCard. rewrite bit_pow2 by exact Hc.
  destruct (Z.testbit h c) eqn:Hb.
  - apply negb_true_iff, Z.eqb_neq. intros H0.
    assert (Ht : Z.testbit (Z.land h (2 ^ c)) c = true).
    { rewrite Z.land_spec, Hb, Z.pow2_bits_true by lia. reflexivity. }
    rewrite H0, Z.bits_0 in Ht. discriminate.
  - apply negb_false_iff, Z.eqb_eq. apply Z.bits_inj'. intros n Hn.
    rewrite Z.land_spec, Z.bits_0.
    destruct (Z.eq_dec c n) as [->|Hne].
    + rewrite Hb. reflexivity.
    + rewrite Z.pow2_bits_false by lia. apply andb_false_r.
Qed.

Lemma ToCard_small (f : Face) (s : Suit) :
  0 <= f < 13 -> 0 <= s < 4 -> ToCard f s = s * 13 + f.
Proof.
  intros Hf Hs. unfold ToCard. rewrite (uint8_small (s * 13)) by lia.
  apply uint8_small. lia.
Qed.

(** ** Slices *)

Lemma upd_length (xs : list Z) (i : nat) (v : Z) : length (upd xs i v) = length xs.
Proof.
  revert i. induction xs as [|x xs IH]; intros [|i]; simpl; auto.
Qed.

Lemma nth_upd_same (xs : list Z) (i : nat) (v : Z) :
  (i < length xs)%nat -> nth i (upd xs i v) 0 = v.
Proof.
  revert i. induction xs as [|x xs IH]; intros [|i] Hi; simpl in *; try lia; auto.
  apply IH. lia.
Qed.

Lemma nth_upd_other (xs : list Z) (i j : nat) (v : Z) :
  i <> j -> nth j (upd xs i v) 0 = nth j xs 0.
Proof.
  revert i j. induction xs as [|x xs IH]; intros [|i] [|j] Hij; simpl; auto; try lia.
Qed.

Lemma upd_upd (xs : list Z) (i : nat) (v w : Z) : upd (upd xs i v) i w = upd xs i w.
Proof.
  revert i. induction xs as [|x xs IH]; intros [|i]; simpl; auto.
  rewrite IH. reflexivity.
Qed.

Lemma upd_nth (xs : list Z) (i : nat) : upd xs i (nth i xs 0) = xs.
Proof.
  revert i. induction xs as [|x xs IH]; intros [|i]; simpl; auto.
  rewrite IH. reflexivity.
Qed.

Lemma upd_Forall (P : Z -> Prop) (xs : list Z) (i : nat) (v : Z) :
  Forall P xs -> P v -> Forall P (upd xs i v).
Proof.
  intros Hxs Hv. revert i. induction Hxs as [|x xs Hx Hxs IH]; intros [|i]; simpl; auto.
Qed.

Lemma idx_Forall (P : Z -> Prop) (xs : list Z) (i : Z) :
  Forall P xs -> P 0 -> P (idx xs i).
Proof.
  intros Hxs H0. unfold idx.
  destruct (Nat.lt_ge_cases (Z.to_nat i) (length xs)) as [Hlt|Hge].
  - rewrite Forall_forall in Hxs. apply Hxs, nth_In, Hlt.
  - rewrite nth_overflow by exact Hge. exact H0.
Qed.

(** ** What the loops of [FaceCounts] and [NumCards] compute *)

Lemma tally_range (h : Hand) (f : Face) : 0 <= tally h f <= 4.
Proof.
  unfold tally, suits. simpl.
  repeat match goal with |- context [HasCard ?a ?b] => destruct (HasCard a b) end;
    simpl; lia.
Qed.

Lemma tally_loop (h : Hand) (f : Face) (result : list Z) :
  (Z.to_nat f < length result)%nat ->
  idx result f = 0 ->
  fold_left (fun result s => if HasCard h (ToCard f s) then incr result f else result)
            suits result
  = set_idx result f (tally h f).
Proof.
  intros Hlen H0. unfold tally, suits, incr, set_idx, idx in *. simpl.
  repeat match goal with |- context [HasCard ?a ?b] => destruct (HasCard a b) end;
    simpl;
    repeat (rewrite ?upd_upd, ?nth_upd_same, ?H0 by (rewrite ?upd_length; exact Hlen));
    try reflexivity.
  rewrite <- H0. symmetry. apply upd_nth.
Qed.

Lemma upd_middle (pre post : list Z) (x v : Z) :
  upd (pre ++ x :: post) (length pre) v = pre ++ v :: post.
Proof.
  induction pre as [|p pre IH]; simpl; [reflexivity | rewrite IH; reflexivity].
Qed.

(** After the faces below [length pre] have been counted, the slice holds
    their tallies followed by the zeros it was made with. *)
Lemma FaceCounts_loop (h : Hand) (n : nat) (pre : list Z) :
  fold_left (FaceCounts_step h) (map Z.of_nat (seq (length pre) n)) (pre ++ repeat 0 n)
  = pre ++ map (tally h) (map Z.of_nat (seq (length pre) n)).
Proof.
  revert pre. induction n as [|n IH]; intros pre.
  - reflexivity.
  - cbn [seq map fold_left repeat]. unfold FaceCounts_step at 2.
    rewrite tally_loop.
    + unfold set_idx. rewrite Nat2Z.id, upd_middle.
      specialize (IH (pre ++ [tally h (Z.of_nat (length pre))])).
      rewrite length_app, Nat.add_1_r, <- app_assoc in IH. simpl in IH.
      rewrite IH, <- app_assoc. reflexivity.
    + rewrite Nat2Z.id, length_app. simpl. lia.
    + unfold idx. rewrite Nat2Z.id. apply nth_middle.
Qed.

Lemma FaceCounts_tally (h : Hand) : FaceCounts h = map (tally h) faces.
Proof. exact (FaceCounts_loop h 13 []). Qed.

Lemma FaceCounts_length (h : Hand) : length (FaceCounts h) = 13%nat.
Proof. rewrite FaceCounts_tally. reflexivity. Qed.

Lemma FaceCounts_idx (h : Hand) (f : Face) :
  In f faces -> idx (FaceCounts h) f = tally h f.
Proof.
  rewrite FaceCounts_tally. unfold faces. simpl.
  intros H; repeat (destruct H as [<-|H]; [reflexivity|]); contradiction.
Qed.

Lemma NumCards_loop (h : Hand) (cs : list Card) (result : Z) :
  0 <= result -> result + Z.of_nat (length cs) < 256 ->
  fold_left (fun result c => if HasCard h c then uint8 (result + 1) else result) cs result
  = result + sumZ (map (fun c => Z.b2z (HasCard h c)) cs).
Proof.
  revert result. induction cs as [|c cs IH]; intros result H0 Hlt.
  - simpl. lia.
  - cbn [length] in Hlt. rewrite Nat2Z.inj_succ in Hlt.
    cbn [fold_left map sumZ fold_right]. fold (sumZ (map (fun c => Z.b2z (HasCard h c)) cs)).
    destruct (HasCard h c); cbn [Z.b2z].
    + rewrite uint8_small by lia. rewrite IH by lia. lia.
    + rewrite IH by lia. lia.
Qed.

Lemma NumCards_sum (h : Hand) :
  NumCards h = sumZ (map (fun c => Z.b2z (HasCard h c)) (cards_from 0)).
Proof.
  unfold NumCards. rewrite NumCards_loop; [reflexivity | lia | vm_compute; reflexivity].
Qed.

Ltac eval_ToCard :=
  repeat match goal with
         | |- context [ToCard ?f ?s] =>
             let v := eval vm_compute in (ToCard f s) in
             change (ToCard f s) with v
         end.

Lemma tally_sum (h : Hand) : sumZ (map (tally h) faces) = NumCards h.
Proof.
  rewrite NumCards_sum.
  let v := eval vm_compute in (cards_from 0) in change (cards_from 0) with v.
  unfold tally, faces, suits, sumZ. cbn [map fold_right].
  eval_ToCard. ring.
Qed.

(** ** Ranges of the category scorers *)

Lemma faces_are_faces : Forall is_face faces.
Proof. unfold faces, is_face. repeat constructor; lia. Qed.

Lemma faces_desc_are_faces : Forall is_face faces_desc.
Proof. unfold faces_desc, is_face. repeat constructor; lia. Qed.

Lemma next_face_score (f : Face) : is_face f -> uint8 (f + 1) = f + 1 /\ 1 <= f + 1 <= 13.
Proof. unfold is_face. intros H. rewrite uint8_small by lia. lia. Qed.

Lemma fold_left_invariant {A B : Type} (P : A -> Prop) (R : B -> Prop)
      (step : A -> B -> A) (l : list B) (a : A) :
  Forall R l -> P a -> (forall a b, P a -> R b -> P (step a b)) ->
  P (fold_left step l a).
Proof.
  intros Hl Ha Hstep. revert a Ha.
  induction Hl as [|b l Hb Hl IH]; intros a Ha; simpl; auto.
Qed.

Lemma straightFlush_suit_range (h : Hand) (s : Suit) (fs : list Face) (runLength : Z) (v : Face) :
  Forall is_face fs -> straightFlush_suit h s fs runLength = Some v -> 1 <= v <= 13.
Proof.
  intros Hfs. revert runLength.
  induction Hfs as [|f fs Hf Hfs IH]; intros runLength; simpl.
  - discriminate.
  - destruct (HasCard h (ToCard f s)); [|apply IH].
    destruct (runLength + 1 =? 5); [|apply IH].
    intros [= <-]. destruct (next_face_score f Hf) as [-> ?]. lia.
Qed.

Lemma straightFlush_suits_range (h : Hand) (ss : list Suit) :
  is_score (straightFlush_suits h ss).
Proof.
  induction ss as [|s ss IH]; cbn [straightFlush_suits].
  - unfold is_score. lia.
  - destruct (straightFlush_suit h s faces 0) as [v|] eqn:E; [|exact IH].
    apply straightFlush_suit_range in E; [|exact faces_are_faces].
    unfold is_score. lia.
Qed.

Lemma straightFlushScore_range (h : Hand) : is_score (straightFlushScore h).
Proof. apply straightFlush_suits_range. Qed.

Lemma fourKind_loop_range (fc : list Z) (fs : list Face) :
  Forall is_face fs -> is_score (fourKind_loop fc fs).
Proof.
  induction 1 as [|f fs Hf Hfs IH]; simpl.
  - unfold is_score. lia.
  - destruct (idx fc f =? 4); [|exact IH].
    destruct (next_face_score f Hf) as [-> ?]. unfold is_score. lia.
Qed.

Lemma fourKindScore_range (fc : list Z) : is_score (fourKindScore fc).
Proof. apply fourKind_loop_range, faces_desc_are_faces. Qed.

Lemma fourKind_loop_hit (fc : list Z) (fs : list Face) (f : Face) :
  Forall is_face fs -> In f fs -> idx fc f = 4 -> 1 <= fourKind_loop fc fs.
Proof.
  induction 1 as [|g fs Hg Hfs IH]; simpl; intros Hin H4.
  - contradiction.
  - destruct (idx fc g =? 4) eqn:E.
    + destruct (next_face_score g Hg) as [-> ?]. lia.
    + destruct Hin as [->|Hin]; [|auto].
      rewrite H4 in E. discriminate.
Qed.

Lemma highCard_loop_range (fc : list Z) (fs : list Face) :
  Forall is_face fs -> is_score (highCard_loop fc fs).
Proof.
  induction 1 as [|f fs Hf Hfs IH]; simpl.
  - unfold is_score. lia.
  - destruct (idx fc f =? 1); [|exact IH].
    destruct (next_face_score f Hf) as [-> ?]. unfold is_score. lia.
Qed.

Lemma highCardScore_range (fc : list Z) : is_score (highCardScore fc).
Proof. apply highCard_loop_range, faces_desc_are_faces. Qed.

Lemma fullHouseScore_range (fc : list Z) : is_score (fullHouseScore fc).
Proof.
  unfold fullHouseScore.
  assert (H : is_score (fst (fold_left (fullHouse_step fc) faces (0, false)))).
  { apply (fold_left_invariant (fun st => is_score (fst st)) is_face).
    - exact faces_are_faces.
    - simpl. unfold is_score. lia.
    - intros [max hasTwo] f Hst Hf. unfold fullHouse_step. simpl in *.
      destruct ((idx fc f =? 3) && (max <? f)); [|exact Hst].
      destruct (next_face_score f Hf) as [-> ?]. unfold is_score. lia. }
  destruct (fold_left (fullHouse_step fc) faces (0, false)) as [max [|]]; simpl in H.
  - exact H.
  - unfold is_score. lia.
Qed.

Lemma threeKindScore_range (fc : list Z) : is_score (threeKindScore fc).
Proof.
  unfold threeKindScore. apply (fold_left_invariant is_score is_face).
  - exact faces_are_faces.
  - unfold is_score. lia.
  - intros max f Hmax Hf. unfold threeKind_step.
    destruct ((idx fc f =? 3) && (max <? f)); [|exact Hmax].
    destruct (next_face_score f Hf) as [-> ?]. unfold is_score. lia.
Qed.

Lemma twoPairScore_range (fc : list Z) : is_score (twoPairScore fc).
Proof.
  unfold twoPairScore.
  assert (H : is_score (fst (fold_left (twoPair_step fc) faces (0, 0)))).
  { apply (fold_left_invariant (fun st => is_score (fst st)) is_face).
    - exact faces_are_faces.
    - simpl. unfold is_score. lia.
    - intros [max pairCount] f Hst Hf. unfold twoPair_step. simpl in *.
      destruct (idx fc f =? 2); [|exact Hst]. simpl.
      destruct (max <? uint8 (f + 1)); [|exact Hst].
      destruct (next_face_score f Hf) as [-> ?]. unfold is_score. lia. }
  destruct (fold_left (twoPair_step fc) faces (0, 0)) as [max pairCount]; simpl in H.
  destruct (2 <=? pairCount); [exact H | unfold is_score; lia].
Qed.

Lemma pairScore_range (fc : list Z) : is_score (pairScore fc).
Proof.
  unfold pairScore. apply (fold_left_invariant is_score is_face).
  - exact faces_are_faces.
  - unfold is_score. lia.
  - intros max f Hmax Hf. unfold pair_step.
    destruct ((idx fc f =? 2) && (max <? uint8 (f + 1))); [|exact Hmax].
    destruct (next_face_score f Hf) as [-> ?]. unfold is_score. lia.
Qed.

Lemma flush_loop_range (h : Hand) (cs : list Card) (SuitCount SuitMax : list Z) :
  Forall is_score SuitMax -> is_score (flush_loop h cs SuitCount SuitMax).
Proof.
  revert SuitCount SuitMax.
  induction cs as [|c cs IH]; intros SuitCount SuitMax Hmax; simpl.
  - unfold is_score. lia.
  - destruct (HasCard h c); [|apply IH; exact Hmax].
    assert (Hf : is_face (CardFace c)).
    { unfold is_face, CardFace. pose proof (Z.mod_pos_bound c 13). lia. }
    destruct (next_face_score _ Hf) as [Hu Hr]. rewrite Hu.
    assert (Hmax' : Forall is_score
              (if idx SuitMax (CardSuit c) <? CardFace c + 1
               then set_idx SuitMax (CardSuit c) (CardFace c + 1) else SuitMax)).
    { destruct (idx SuitMax (CardSuit c) <? CardFace c + 1); [|exact Hmax].
      apply upd_Forall; [exact Hmax | unfold is_score; lia]. }
    destruct (idx (incr SuitCount (CardSuit c)) (CardSuit c) =? 5).
    + apply idx_Forall; [exact Hmax' | unfold is_score; lia].
    + apply IH. exact Hmax'.
Qed.

Lemma flushScore_range (h : Hand) : is_score (flushScore h).
Proof. apply flush_loop_range. repeat constructor; unfold is_score; lia. Qed.

Lemma straight_loop_range (h : Hand) (fs : list Face) (runLength : Z) (max : Face) :
  Forall is_face fs -> is_score max -> is_score (straight_loop h fs runLength max).
Proof.
  intros Hfs. revert runLength max.
  induction Hfs as [|f fs Hf Hfs IH]; intros runLength max Hmax; simpl.
  - unfold is_score. lia.
  - destruct (next_face_score f Hf) as [Hu Hr].
    assert (Hm : is_score (if runLength =? 0 then uint8 (f + 1) else max)).
    { destruct (runLength =? 0); [rewrite Hu; unfold is_score; lia | exact Hmax]. }
    repeat (destruct (HasCard h (ToCard f _));
            [destruct (runLength + 1 =? 5); [exact Hm | apply IH; exact Hm]|]).
    apply IH. unfold is_score. lia.
Qed.

Lemma straightScore_range (h : Hand) : is_score (straightScore h).
Proof.
  apply straight_loop_range; [exact faces_desc_are_faces | unfold is_score; lia].
Qed.

Create HintDb scores.
#[local] Hint Resolve straightFlushScore_range fourKindScore_range fullHouseScore_range
  flushScore_range straightScore_range threeKindScore_range twoPairScore_range
  pairScore_range highCardScore_range : scores.

Lemma In_faces_desc (f : Face) : In f faces -> In f faces_desc.
Proof.
  unfold faces, faces_desc. simpl. intros H.
  repeat (destruct H as [H|H]; [subst f; tauto|]). contradiction.
Qed.

Lemma fourKind_loop_none (fc : list Z) (fs : list Face) :
  (forall g, In g fs -> idx fc g <> 4) -> fourKind_loop fc fs = 0.
Proof.
  induction fs as [|f fs IH]; simpl; intros H.
  - reflexivity.
  - destruct (idx fc f =? 4) eqn:E.
    + apply Z.eqb_eq in E. exfalso. apply (H f); auto.
    + apply IH. intros g Hg. apply H. auto.
Qed.

Lemma sumZ_b2z_range (p : Card -> bool) (cs : list Card) :
  0 <= sumZ (map (fun c => Z.b2z (p c)) cs) <= Z.of_nat (length cs).
Proof.
  induction cs as [|c cs IH].
  - simpl. lia.
  - cbn [map sumZ fold_right length]. fold (sumZ (map (fun c => Z.b2z (p c)) cs)).
    rewrite Nat2Z.inj_succ. destruct (p c); cbn [Z.b2z]; lia.
Qed.

Lemma NumCards_range (h : Hand) : 0 <= NumCards h <= 52.
Proof.
  rewrite NumCards_sum.
  pose proof (sumZ_b2z_range (HasCard h) (cards_from 0)) as H.
  change (Z.of_nat (length (cards_from 0))) with 52 in H. exact H.
Qed.

(** ** Face tally and card count *)

(** C9. For every hand with no bit set at position 52 or above, the slice
    returned by [FaceCounts] has 13 entries, each between 0 and 4, and the
    entries add up to [NumCards]. *)
Theorem FaceCounts_entries_and_sum (h : Hand) :
  0 <= h < 2 ^ 52 ->
  length (FaceCounts h) = 13%nat /\
  Forall (fun n => 0 <= n <= 4) (FaceCounts h) /\
  sumZ (FaceCounts h) = NumCards h.
Proof.
  intros _. split; [apply FaceCounts_length|]. split.
  - rewrite FaceCounts_tally. apply Forall_forall. intros n Hn.
    apply in_map_iff in Hn. destruct Hn as [f [<- _]]. apply tally_range.
  - rewrite FaceCounts_tally. apply tally_sum.
Qed.

Lemma FaceCounts_entries_and_sum_witness :
  length (FaceCounts royal_spades) = 13%nat /\
  Forall (fun n => 0 <= n <= 4) (FaceCounts royal_spades) /\
  sumZ (FaceCounts royal_spades) = NumCards royal_spades.
Proof.
  apply (FaceCounts_entries_and_sum royal_spades). vm_compute. split; [discriminate | reflexivity].
Defined.

(** ** Composite ranker *)

Lemma tier_rank (s k : Z) : is_score s -> 0 <= k <= 104 -> uint32 (uint32 s + k) = s + k.
Proof.
  unfold is_score. intros Hs Hk.
  rewrite (uint32_small s) by lia. apply uint32_small. lia.
Qed.

(** No conversion to [uint32] in [Score] wraps. *)
Lemma Score_unwrapped (h : Hand) :
  Score h =
  let fc := FaceCounts h in
  if straightFlushScore h =? 0 then
    if fourKindScore fc =? 0 then
      if fullHouseScore fc =? 0 then
        if flushScore h =? 0 then
          if straightScore h =? 0 then
            if threeKindScore fc =? 0 then
              if twoPairScore fc =? 0 then
                if pairScore fc =? 0 then highCardScore fc
                else pairScore fc + 13
              else twoPairScore fc + 26
            else threeKindScore fc + 39
          else straightScore h + 52
        else flushScore h + 65
      else fullHouseScore fc + 78
    else fourKindScore fc + 91
  else straightFlushScore h + 104.
Proof.
  unfold Score. cbv zeta.
  rewrite !tier_rank by (auto with scores; lia).
  rewrite (uint32_small (highCardScore _)); [reflexivity|].
  pose proof (highCardScore_range (FaceCounts h)) as H. unfold is_score in H. lia.
Qed.

(** C4. [Score] is the result of the first scorer, in the order straight
    flush, four of a kind, full house, flush, straight, three of a kind, two
    pairs, pair, high card, that is not zero, plus 13 times its tier (8 down
    to 0); when all nine are zero it is 0. *)
Theorem Score_first_nonzero (h : Hand) : Score h = Rank_spec h.
Proof.
  rewrite Score_unwrapped.
  unfold Rank_spec, first_nonzero, scorers. cbv zeta. cbn [find fst].
  destruct (straightFlushScore h =? 0); cbn [negb]; [|lia].
  destruct (fourKindScore (FaceCounts h) =? 0); cbn [negb]; [|lia].
  destruct (fullHouseScore (FaceCounts h) =? 0); cbn [negb]; [|lia].
  destruct (flushScore h =? 0); cbn [negb]; [|lia].
  destruct (straightScore h =? 0); cbn [negb]; [|lia].
  destruct (threeKindScore (FaceCounts h) =? 0); cbn [negb]; [|lia].
  destruct (twoPairScore (FaceCounts h) =? 0); cbn [negb]; [|lia].
  destruct (pairScore (FaceCounts h) =? 0); cbn [negb]; [|lia].
  destruct (highCardScore (FaceCounts h) =? 0) eqn:E; cbn [negb]; [|lia].
  apply Z.eqb_eq in E. exact E.
Qed.

Lemma Score_with_four_kind (q : Hand) (f : Face) :
  In f faces -> idx (FaceCounts q) f = 4 -> 92 <= Score q.
Proof.
  intros Hf H4. rewrite Score_unwrapped. cbv zeta.
  pose proof (straightFlushScore_range q) as Hsf. unfold is_score in Hsf.
  destruct (Z.eqb_spec (straightFlushScore q) 0); [|lia].
  pose proof (fourKind_loop_hit (FaceCounts q) faces_desc f
                faces_desc_are_faces (In_faces_desc f Hf) H4) as Hpos.
  fold (fourKindScore (FaceCounts q)) in Hpos.
  destruct (Z.eqb_spec (fourKindScore (FaceCounts q)) 0); lia.
Qed.

Lemma Score_below_four_kind (f : Hand) :
  straightFlushScore f = 0 -> fourKindScore (FaceCounts f) = 0 -> Score f <= 91.
Proof.
  intros Hsf H4. rewrite Score_unwrapped. cbv zeta.
  rewrite Hsf, H4. cbn [Z.eqb].
  pose proof (fullHouseScore_range (FaceCounts f)) as Hfh.
  pose proof (flushScore_range f) as Hfl.
  pose proof (straightScore_range f) as Hst.
  pose proof (threeKindScore_range (FaceCounts f)) as H3.
  pose proof (twoPairScore_range (FaceCounts f)) as H2.
  pose proof (pairScore_range (FaceCounts f)) as H1.
  pose proof (highCardScore_range (FaceCounts f)) as H0.
  unfold is_score in *.
  repeat match goal with
         | |- context [?s =? 0] => destruct (s =? 0)
         end; lia.
Qed.

(** C6, as the code has it.  A hand with a face of tally 4 outranks a hand
    with a face of tally 3 and another of tally 2, provided the latter
    holds neither a straight flush nor a face of tally 4. *)
Theorem four_kind_beats_full_house (q f : Hand) (f4 f3 f2 : Face) :
  In f4 faces -> idx (FaceCounts q) f4 = 4 ->
  In f3 faces -> In f2 faces -> f3 <> f2 ->
  idx (FaceCounts f) f3 = 3 -> idx (FaceCounts f) f2 = 2 ->
  straightFlushScore f = 0 ->
  (forall g, In g faces -> idx (FaceCounts f) g <> 4) ->
  Score q > Score f.
Proof.
  intros Hf4 Hq _ _ _ _ _ Hsf Hno4.
  pose proof (Score_with_four_kind q f4 Hf4 Hq) as Hlow.
  assert (H4 : fourKindScore (FaceCounts f) = 0).
  { apply fourKind_loop_none. intros g Hg. apply Hno4.
    unfold faces_desc, faces in *. simpl in *. tauto. }
  pose proof (Score_below_four_kind f Hsf H4). lia.
Qed.

Lemma four_kind_beats_full_house_witness :
  Score four_twos > Score kings_full_of_queens.
Proof.
  apply (four_kind_beats_full_house four_twos kings_full_of_queens 0 11 10).
  - simpl. tauto.
  - reflexivity.
  - simpl. tauto.
  - simpl. tauto.
  - discriminate.
  - reflexivity.
  - reflexivity.
  - reflexivity.
  - intros g Hg. simpl in Hg.
    repeat (destruct Hg as [<-|Hg]; [vm_compute; discriminate|]). contradiction.
Defined.

(** C6, as stated, fails: the four twos have a face of tally 4, the eight
    cards K K K Q Q with the 9, 10, J of spades have a face of tally 3 and
    another of tally 2, and the second hand, which holds the straight flush
    9 to K of spades, has the higher rank. *)
Lemma four_kind_below_full_house_with_straight_flush :
  idx (FaceCounts four_twos) 0 = 4 /\
  idx (FaceCounts kings_full_with_straight_flush) 11 = 3 /\
  idx (FaceCounts kings_full_with_straight_flush) 10 = 2 /\
  Score four_twos = 92 /\
  Score kings_full_with_straight_flush = 116 /\
  ~ Score four_twos > Score kings_full_with_straight_flush.
Proof. vm_compute. repeat split; try reflexivity. intros H; discriminate H. Qed.

(** C10. On the empty hand every scorer returns 0, [Score] is 0 and
    [Describe] is "high Card". *)
Theorem empty_hand_high_card :
  Score 0 = 0 /\ Describe 0 = "high Card"%string /\
  Forall (fun r => fst r = 0) (scorers 0).
Proof. vm_compute. repeat constructor. Qed.

(** C1 fails on the code.  [Describe] has no case for four of a kind nor for
    a straight: four aces with a king rank in the four-of-a-kind tier, a
    2-to-6 straight of mixed suits ranks in the straight tier, and both are
    described as "high Card". *)
Theorem Describe_misses_four_kind_and_straight :
  (Score four_aces_king = 104 /\
   tier_of_rank (Score four_aces_king) = FourKind /\
   Describe four_aces_king = "high Card"%string) /\
  (Score rainbow_straight = 57 /\
   tier_of_rank (Score rainbow_straight) = Straight /\
   Describe rainbow_straight = "high Card"%string).
Proof. vm_compute. repeat split. Qed.

(** C7 fails on the code.  With three twos and two threes the tallies hold
    a 3 (at face 0) and a 2 (at face 1), and [fullHouseScore] returns 0
    where the highest face of tally 3, plus one, is 1: the test [f > max]
    never admits face 0.  The hand is ranked as a pair. *)
Theorem fullHouseScore_three_twos :
  FaceCounts twos_full_of_threes = [3; 2; 0; 0; 0; 0; 0; 0; 0; 0; 0; 0; 0] /\
  fullHouseScore (FaceCounts twos_full_of_threes) = 0 /\
  Score twos_full_of_threes = 15 /\
  Describe twos_full_of_threes = "pair"%string.
Proof. vm_compute. repeat split. Qed.

(** ** Equity solver *)

(** C2. When both hands already hold [lookahead] cards, [Compare] returns
    1 if the first hand has the higher [Score], 0 if it has the lower one
    and 1/2 if the two are equal. *)
Theorem Compare_at_showdown (h1 h2 : Hand) (lookahead : Z) :
  NumCards h1 = lookahead -> NumCards h2 = lookahead ->
  (Score h1 > Score h2 -> Compare h1 h2 lookahead = 1%Q) /\
  (Score h1 < Score h2 -> Compare h1 h2 lookahead = 0%Q) /\
  (Score h1 = Score h2 -> Compare h1 h2 lookahead = (1 # 2)%Q).
Proof.
  intros H1 H2. unfold Compare. rewrite H1, H2, Z.ltb_irrefl, Z.sub_diag.
  change (Z.to_nat (uint8 0)) with 0%nat. cbn [_compare].
  repeat split; intros H.
  - apply Z.gt_lt, Z.ltb_lt in H. rewrite H. reflexivity.
  - assert (E : (Score h2 <? Score h1) = false) by (apply Z.ltb_ge; lia).
    apply Z.ltb_lt in H. rewrite E, H. reflexivity.
  - rewrite H, Z.ltb_irrefl. reflexivity.
Qed.

Lemma Compare_at_showdown_witness :
  Compare royal_spades kings_full_of_queens 5 = 1%Q /\
  Compare kings_full_of_queens royal_spades 5 = 0%Q /\
  Compare four_aces_king four_aces_king 5 = (1 # 2)%Q.
Proof.
  split; [|split].
  - apply (Compare_at_showdown royal_spades kings_full_of_queens 5); reflexivity.
  - apply (Compare_at_showdown kings_full_of_queens royal_spades 5); reflexivity.
  - apply (Compare_at_showdown four_aces_king four_aces_king 5); reflexivity.
Defined.

(** C5, as the code has it.  With [lookahead] below the larger card count
    [Compare] does not fail: it returns what [_compare] computes for the
    [uint8] difference of [lookahead] and the smaller count, which is the
    plain difference when [lookahead] reaches the smaller count and wraps
    around 256 when it does not. *)
Theorem Compare_short_lookahead (h1 h2 : Hand) (lookahead : Z) :
  0 <= lookahead < 256 ->
  lookahead < Z.max (NumCards h1) (NumCards h2) ->
  let m := Z.min (NumCards h1) (NumCards h2) in
  Compare_call h1 h2 lookahead
  = Returned (_compare h1 (NumCards h1) h2 (NumCards h2) 0
                (Z.to_nat (if m <=? lookahead then lookahead - m
                           else 256 + lookahead - m))).
Proof.
  intros HL _ m. unfold Compare_call, Compare. do 3 f_equal.
  pose proof (NumCards_range h1) as R1. pose proof (NumCards_range h2) as R2.
  assert (Hm : forall l, l = m ->
             uint8 (lookahead - l)
             = if m <=? lookahead then lookahead - m else 256 + lookahead - m).
  { intros l ->. unfold uint8. subst m.
    destruct (Z.leb_spec (Z.min (NumCards h1) (NumCards h2)) lookahead);
      Z.div_mod_to_equations; lia. }
  destruct (Z.ltb_spec (NumCards h2) (NumCards h1));
    [|destruct (Z.ltb_spec (NumCards h1) (NumCards h2))];
    apply Hm; subst m; lia.
Qed.

Lemma Compare_short_lookahead_witness :
  Compare_call full_deck full_deck 0
  = Returned (_compare full_deck (NumCards full_deck) full_deck (NumCards full_deck) 0
                (Z.to_nat (if Z.min (NumCards full_deck) (NumCards full_deck) <=? 0
                           then 0 - Z.min (NumCards full_deck) (NumCards full_deck)
                           else 256 + 0 - Z.min (NumCards full_deck) (NumCards full_deck)))).
Proof.
  apply (Compare_short_lookahead full_deck full_deck 0).
  - lia.
  - vm_compute. reflexivity.
Defined.

(** C5, as stated, fails: with one card against none and [lookahead] 0 the
    call returns 1; with the whole deck in both hands and [lookahead] 0 the
    difference wraps to 204 and the call returns 1/2. *)
Lemma Compare_short_lookahead_returns :
  (0 < Z.max (NumCards ace_spades) (NumCards 0) /\
   Compare_call ace_spades 0 0 = Returned 1%Q) /\
  (0 < Z.max (NumCards full_deck) (NumCards full_deck) /\
   uint8 (0 - NumCards full_deck) = 204 /\
   Compare_call full_deck full_deck 0 = Returned (1 # 2)%Q) /\
  Compare_call ace_spades 0 0 <> InvalidArgument.
Proof.
  split; [|split]; [vm_compute; auto | vm_compute; auto | discriminate].
Qed.

Lemma free_sym (h1 h2 : Hand) (c : Card) : free h1 h2 c = free h2 h1 c.
Proof. unfold free. apply andb_comm. Qed.

Section Swap.

Variables (h1 h2 : Hand) (sub sub' : Card -> Q).
Hypothesis complement : forall c, (sub c + sub' c == 1)%Q.

(** Two candidate loops over the same cards, with the hands exchanged and
    sub-results that add up to one at every candidate, count the same
    candidates, and their sums add up to that count. *)
Lemma draw_fold_swap (cs : list Card) :
  forall (a a' : Q) (n : Z),
    let r := fold_left (draw_step h1 h2 sub) cs (a, n) in
    let r' := fold_left (draw_step h2 h1 sub') cs (a', n) in
    snd r = snd r' /\ n <= snd r /\
    (fst r + fst r' == a + a' + inject_Z (snd r - n))%Q.
Proof.
  induction cs as [|c cs IH]; intros a a' n; cbn [fold_left].
  - cbn [fst snd]. rewrite Z.sub_diag. repeat split; try lia.
    change (inject_Z 0) with 0%Q. ring.
  - assert (E : forall g1 g2 s b m, draw_step g1 g2 s (b, m) c
                  = if free g1 g2 c then ((b + s c)%Q, m + 1) else (b, m))
      by reflexivity.
    rewrite !E, (free_sym h2 h1 c). clear E.
    destruct (free h1 h2 c); [|apply IH].
    specialize (IH (a + sub c)%Q (a' + sub' c)%Q (n + 1)).
    cbv zeta in IH. destruct IH as [Hn [Hle Hsum]].
    repeat split; [exact Hn | lia |].
    rewrite Hsum.
    replace (snd (fold_left (draw_step h1 h2 sub) cs ((a + sub c)%Q, n + 1)) - n)
      with ((snd (fold_left (draw_step h1 h2 sub) cs ((a + sub c)%Q, n + 1))
             - (n + 1)) + 1)
      by lia.
    rewrite inject_Z_plus. change (inject_Z 1) with 1%Q.
    rewrite <- (complement c). ring.
Qed.

(** The means of the two loops add up to one, also when no candidate is
    left and both fall back on 1/2. *)
Lemma draw_loop_swap (cs : list Card) :
  ((let '(ch, nc) := draw_loop h1 h2 sub cs in
    if nc =? 0 then 1 # 2 else ch / inject_Z nc)
   + (let '(ch, nc) := draw_loop h2 h1 sub' cs in
      if nc =? 0 then 1 # 2 else ch / inject_Z nc) == 1)%Q.
Proof.
  unfold draw_loop.
  pose proof (draw_fold_swap cs 0%Q 0%Q 0) as H. cbv zeta in H.
  destruct (fold_left (draw_step h1 h2 sub) cs (0%Q, 0)) as [ch nc].
  destruct (fold_left (draw_step h2 h1 sub') cs (0%Q, 0)) as [ch' nc'].
  cbn [fst snd] in H. destruct H as [<- [Hle Hsum]].
  destruct (Z.eqb_spec nc 0) as [->|Hnz].
  - reflexivity.
  - rewrite Z.sub_0_r in Hsum.
    assert (Hq : ~ (inject_Z nc == 0)%Q).
    { change 0%Q with (inject_Z 0). rewrite inject_Z_injective. exact Hnz. }
    setoid_replace (ch / inject_Z nc + ch' / inject_Z nc)%Q
      with ((ch + ch') / inject_Z nc)%Q by (field; exact Hq).
    rewrite Hsum. field. exact Hq.
Qed.

End Swap.

(** Exchanging the two hands turns every result of [_compare] into its
    complement. *)
Lemma _compare_swap (lookahead : nat) :
  forall (h1 : Hand) (l1 : Z) (h2 : Hand) (l2 : Z) (firstCard : Card),
    (_compare h1 l1 h2 l2 firstCard lookahead
     + _compare h2 l2 h1 l1 firstCard lookahead == 1)%Q.
Proof.
  induction lookahead as [|n IH]; intros h1 l1 h2 l2 firstCard; cbn [_compare].
  - destruct (Z.ltb_spec (Score h2) (Score h1)), (Z.ltb_spec (Score h1) (Score h2));
      try lia; reflexivity.
  - destruct (Z.ltb_spec l1 l2), (Z.ltb_spec l2 l1); try lia;
      apply draw_loop_swap; intros c; apply IH.
Qed.



(** ** The straight scorer *)

Lemma straight_suits_hit (h : Hand) (f : Face) (runLength : Z) (max : Face) :
  straight_suits h f suits runLength max
  = if hit h f then
      let max := if runLength =? 0 then uint8 (f + 1) else max in
      if runLength + 1 =? 5 then Return max else Found (runLength + 1) max
    else NotFound.
Proof.
  unfold hit, suits. cbn [straight_suits existsb].
  repeat match goal with |- context [HasCard ?a ?b] => destruct (HasCard a b) end;
    reflexivity.
Qed.

Lemma straight_loop_scan (h : Hand) (fs : list Face) :
  forall runLength max,
    straight_loop h fs runLength max = straight_scan (hit h) fs runLength max.
Proof.
  induction fs as [|f fs IH]; intros runLength max; cbn [straight_loop straight_scan].
  - reflexivity.
  - rewrite straight_suits_hit. destruct (hit h f); [|apply IH].
    cbv zeta. destruct (runLength + 1 =? 5); [reflexivity | apply IH].
Qed.

Lemma straight_scan_ext (hitf hitf' : Face -> bool) (fs : list Face) :
  (forall f, In f fs -> hitf f = hitf' f) ->
  forall runLength max,
    straight_scan hitf fs runLength max = straight_scan hitf' fs runLength max.
Proof.
  induction fs as [|f fs IH]; intros H runLength max; cbn [straight_scan].
  - reflexivity.
  - rewrite <- (H f) by (left; reflexivity).
    rewrite !IH by (intros g Hg; apply H; right; exact Hg). reflexivity.
Qed.

Lemma forallb_ext_in {A : Type} (p q : A -> bool) (l : list A) :
  (forall x, In x l -> p x = q x) -> forallb p l = forallb q l.
Proof.
  induction l as [|x l IH]; intros H; cbn [forallb].
  - reflexivity.
  - rewrite (H x) by (left; reflexivity).
    rewrite IH by (intros y Hy; apply H; right; exact Hy). reflexivity.
Qed.

Lemma run5_ext (hitf hitf' : Face -> bool) (hi : Face) :
  (forall f, In f faces -> hitf f = hitf' f) ->
  In hi run_tops -> run5 hitf hi = run5 hitf' hi.
Proof.
  intros H Hhi. unfold run5. apply forallb_ext_in. intros f Hf. apply H.
  unfold run_tops, faces in *. cbn [In] in *.
  repeat (destruct Hhi as [<-|Hhi]; [cbn in Hf; tauto|]). contradiction.
Qed.

Lemma find_ext_in {A : Type} (p q : A -> bool) (l : list A) :
  (forall x, In x l -> p x = q x) -> find p l = find q l.
Proof.
  induction l as [|x l IH]; intros H; cbn [find].
  - reflexivity.
  - rewrite (H x) by (left; reflexivity).
    rewrite IH by (intros y Hy; apply H; right; exact Hy). reflexivity.
Qed.

Lemma highest_run_ext (hitf hitf' : Face -> bool) :
  (forall f, In f faces -> hitf f = hitf' f) -> highest_run hitf = highest_run hitf'.
Proof.
  intros H. unfold highest_run.
  rewrite (find_ext_in (run5 hitf) (run5 hitf') run_tops); [reflexivity|].
  intros hi Hhi. apply run5_ext; assumption.
Qed.

Lemma wheel_only_ext (hitf hitf' : Face -> bool) :
  (forall f, In f faces -> hitf f = hitf' f) -> wheel_only hitf = wheel_only hitf'.
Proof.
  intros H. unfold wheel_only. f_equal.
  - apply forallb_ext_in. intros f Hf. apply H.
    unfold faces. cbn [In] in *. tauto.
  - apply forallb_ext_in. intros hi Hhi. f_equal. apply run5_ext; assumption.
Qed.

Lemma all_bools_sound (n : nat) :
  forall p, all_bools n p = true -> forall bs, length bs = n -> p bs = true.
Proof.
  induction n as [|n IH]; intros p Hp bs Hlen; cbn [all_bools] in Hp.
  - destruct bs; [exact Hp | discriminate].
  - destruct bs as [|b bs]; [discriminate|].
    apply andb_true_iff in Hp. destruct Hp as [Ht Hf].
    injection Hlen as Hlen.
    destruct b; [apply (IH _ Ht) | apply (IH _ Hf)]; exact Hlen.
Qed.

Lemma straight_check_all : all_bools 13 straight_check = true.
Proof. vm_compute. reflexivity. Qed.

Lemma hits_of_faces (hitf : Face -> bool) (f : Face) :
  In f faces -> hitf f = hits_of (map hitf faces) f.
Proof.
  unfold faces. cbn [In]. intros H.
  repeat (destruct H as [<-|H]; [reflexivity|]). contradiction.
Qed.

Lemma straight_scan_highest_run (hitf : Face -> bool) :
  straight_scan hitf faces_desc 0 0 = highest_run hitf /\
  (wheel_only hitf = true -> straight_scan hitf faces_desc 0 0 = 0).
Proof.
  pose proof (all_bools_sound 13 straight_check straight_check_all
                (map hitf faces) eq_refl) as H.
  unfold straight_check in H.
  rewrite <- (straight_scan_ext hitf _ faces_desc) in H
    by (intros f Hf; apply hits_of_faces; unfold faces, faces_desc in *;
        cbn [In] in *; tauto).
  rewrite <- (highest_run_ext hitf) in H by apply hits_of_faces.
  rewrite <- (wheel_only_ext hitf) in H by apply hits_of_faces.
  apply andb_true_iff in H. destruct H as [H1 H2].
  apply Z.eqb_eq in H1. split; [exact H1|].
  intros Hw. rewrite Hw in H2. cbn [negb orb] in H2. apply Z.eqb_eq. exact H2.
Qed.

(** C8. [straightScore] scans the faces from the ace down, a face counting
    as hit when some suit holds it, and returns the top face plus one of
    the first five hit faces in sequence it meets, 0 when there are none;
    the ace is never low: a hand whose only five faces in sequence are
    A, 2, 3, 4, 5 scores 0. *)
Theorem straightScore_highest_run (h : Hand) :
  straightScore h = straight_scan (hit h) faces_desc 0 0 /\
  straightScore h = highest_run (hit h) /\
  (wheel_only (hit h) = true -> straightScore h = 0).
Proof.
  unfold straightScore. rewrite straight_loop_scan.
  split; [reflexivity|]. apply straight_scan_highest_run.
Qed.

Lemma straightScore_highest_run_witness :
  straightScore wheel = straight_scan (hit wheel) faces_desc 0 0 /\
  straightScore wheel = highest_run (hit wheel) /\
  straightScore wheel = 0.
Proof.
  destruct (straightScore_highest_run wheel) as [H1 [H2 H3]].
  split; [exact H1|]. split; [exact H2|]. apply H3. vm_compute. reflexivity.
Defined.

(** * Further properties of the card and hand model *)

Lemma bit_high (c : Card) : 64 <= c -> bit c = 0.
Proof.
  intros Hc. unfold bit, uint64. rewrite Z.shiftl_1_l.
  replace c with ((c - 64) + 64) by lia.
  rewrite Z.pow_add_r by lia. apply Z.mod_mul. lia.
Qed.

(** [HasCard] reads bit [c] of the register when [c] is below 64 and is
    false above: the shifted one has left the 64 bits. *)
Lemma HasCard_spec (h : Hand) (c : Card) :
  0 <= c -> HasCard h c = (c <? 64) && Z.testbit h c.
Proof.
  intros Hc. destruct (Z.ltb_spec c 64) as [Hlt|Hge].
  - rewrite HasCard_testbit by lia. reflexivity.
  - unfold HasCard. rewrite bit_high by exact Hge. rewrite Z.land_0_r. reflexivity.
Qed.

Lemma AddCard_testbit (h : Hand) (c d : Z) :
  0 <= c -> 0 <= d -> Z.testbit (AddCard h c) d = Z.testbit h d || ((c =? d) && (c <? 64)).
Proof.
  intros Hc Hd. unfold AddCard. rewrite Z.lor_spec.
  destruct (Z.ltb_spec c 64) as [Hlt|Hge].
  - rewrite bit_pow2 by lia. rewrite Z.pow2_bits_eqb by lia. rewrite andb_true_r. reflexivity.
  - rewrite bit_high by exact Hge. rewrite Z.bits_0, andb_false_r. reflexivity.
Qed.

Lemma HasCard_AddCard_gen (h : Hand) (c d : Card) :
  0 <= c -> 0 <= d ->
  HasCard (AddCard h c) d = ((c =? d) && (d <? 64)) || HasCard h d.
Proof.
  intros Hc Hd. rewrite !HasCard_spec by exact Hd. rewrite AddCard_testbit by assumption.
  destruct (Z.eqb_spec c d) as [->|Hne]; destruct (d <? 64), (Z.testbit h d);
    try reflexivity; destruct (c <? 64); reflexivity.
Qed.

(** X1. Insert then look up: after [AddCard h c] the hand has card [d] when
    [d] is [c] and lies below 64, or when [h] had it already; a card index
    of 64 or more adds nothing. *)
Theorem HasCard_AddCard (h : Hand) (c d : Card) :
  0 <= c -> 0 <= d ->
  HasCard (AddCard h c) d = ((c =? d) && (d <? 64)) || HasCard h d.
Proof. apply HasCard_AddCard_gen. Qed.

Lemma HasCard_AddCard_witness :
  HasCard (AddCard ace_spades 25) 25 = ((25 =? 25) && (25 <? 64)) || HasCard ace_spades 25.
Proof. apply (HasCard_AddCard ace_spades 25 25); lia. Defined.

(** X2. A card index from 64 up is out of the register: [AddCard] returns
    the hand unchanged and [HasCard] answers false. *)
Theorem AddCard_out_of_register (h : Hand) (c : Card) :
  64 <= c -> AddCard h c = h /\ HasCard h c = false.
Proof.
  intros Hc. unfold AddCard, HasCard. rewrite bit_high by exact Hc.
  rewrite Z.lor_0_r, Z.land_0_r. split; reflexivity.
Qed.

Lemma AddCard_out_of_register_witness :
  AddCard royal_spades 64 = royal_spades /\ HasCard royal_spades 64 = false.
Proof. apply (AddCard_out_of_register royal_spades 64). lia. Defined.

(** X3. Adding a card twice is adding it once, and the order in which two
    cards are added does not matter. *)
Theorem AddCard_idempotent_commutative (h : Hand) (c d : Card) :
  AddCard (AddCard h c) c = AddCard h c /\
  AddCard (AddCard h c) d = AddCard (AddCard h d) c.
Proof.
  unfold AddCard. split.
  - rewrite <- Z.lor_assoc, Z.lor_diag. reflexivity.
  - rewrite <- !Z.lor_assoc. f_equal. apply Z.lor_comm.
Qed.

(** ** Card indices *)

Lemma ToCard_parts (f : Face) (s : Suit) :
  0 <= f < 13 -> 0 <= s < 4 ->
  CardFace (s * 13 + f) = f /\ CardSuit (s * 13 + f) = s.
Proof.
  intros Hf Hs. unfold CardFace, CardSuit. split.
  - rewrite Z.add_comm, Z.mod_add by lia. apply Z.mod_small. lia.
  - rewrite Z.add_comm, Z.div_add by lia. rewrite Z.div_small by lia. lia.
Qed.

(** X4. A face and a suit make a card index below 52, from which
    [Card.Face] and [Card.Suit] give them back. *)
Theorem ToCard_Face_Suit (f : Face) (s : Suit) :
  0 <= f < 13 -> 0 <= s < 4 ->
  0 <= ToCard f s < 52 /\ CardFace (ToCard f s) = f /\ CardSuit (ToCard f s) = s.
Proof.
  intros Hf Hs. rewrite ToCard_small by assumption.
  split; [lia | apply ToCard_parts; assumption].
Qed.

Lemma ToCard_Face_Suit_witness :
  0 <= ToCard 12 3 < 52 /\ CardFace (ToCard 12 3) = 12 /\ CardSuit (ToCard 12 3) = 3.
Proof. apply (ToCard_Face_Suit 12 3); lia. Defined.

(** X5. Every card index of the [uint8] range, not only those of the deck,
    is made again by [ToCard] from its face and suit; below 52 the face is
    below 13 and the suit below 4. *)
Theorem Face_Suit_ToCard (c : Card) :
  0 <= c < 256 ->
  ToCard (CardFace c) (CardSuit c) = c /\
  0 <= CardFace c < 13 /\
  (c < 52 -> 0 <= CardSuit c < 4).
Proof.
  intros Hc. unfold ToCard, CardFace, CardSuit, uint8.
  pose proof (Z.div_mod c 13 ltac:(lia)) as Hdm.
  pose proof (Z.mod_pos_bound c 13 ltac:(lia)) as Hm.
  split; [|split].
  - rewrite (Z.mod_small (c / 13 * 13)) by lia. rewrite Z.mod_small by lia. lia.
  - exact Hm.
  - intros Hd. lia.
Qed.

Lemma Face_Suit_ToCard_witness :
  ToCard (CardFace 255) (CardSuit 255) = 255 /\
  0 <= CardFace 255 < 13 /\
  (255 < 52 -> 0 <= CardSuit 255 < 4).
Proof. apply (Face_Suit_ToCard 255). lia. Defined.

(** ** Counting cards *)

Lemma In_cards_from_0 (c : Card) : In c (cards_from 0) <-> 0 <= c < 52.
Proof.
  unfold cards_from. rewrite in_map_iff. split.
  - intros [n [<- Hn]]. apply in_seq in Hn. cbn in Hn. lia.
  - intros Hc. exists (Z.to_nat c). split; [lia|]. apply in_seq. cbn. lia.
Qed.

Lemma NoDup_cards_from_0 : NoDup (cards_from 0).
Proof.
  unfold cards_from. generalize (seq_NoDup (Z.to_nat NUM_CARDS - Z.to_nat 0) (Z.to_nat 0)).
  generalize (seq (Z.to_nat 0) (Z.to_nat NUM_CARDS - Z.to_nat 0)).
  intros l Hl. induction Hl as [|n l Hn Hl IH]; cbn [map]; constructor.
  - intros Hin. apply in_map_iff in Hin. destruct Hin as [m [E Hm]].
    apply Nat2Z.inj in E. subst m. contradiction.
  - exact IH.
Qed.

Lemma existsb_eqb_In (c : Z) (ds : list Z) : existsb (Z.eqb c) ds = true <-> In c ds.
Proof.
  rewrite existsb_exists. split.
  - intros [d [Hd E]]. apply Z.eqb_eq in E. subst d. exact Hd.
  - intros Hc. exists c. split; [exact Hc | apply Z.eqb_refl].
Qed.

(** Over cards without repetition, adding [c] to the hand raises the count
    by one when [c] is among them, is in the register and was not held. *)
Lemma count_AddCard (h : Hand) (c : Card) (ds : list Card) :
  0 <= c -> NoDup ds -> Forall (fun d => 0 <= d) ds ->
  sumZ (map (fun d => Z.b2z (HasCard (AddCard h c) d)) ds)
  = sumZ (map (fun d => Z.b2z (HasCard h d)) ds)
    + Z.b2z (existsb (Z.eqb c) ds && (c <? 64) && negb (HasCard h c)).
Proof.
  intros Hc Hnd Hpos. induction Hnd as [|d ds Hd Hnd IH].
  - reflexivity.
  - apply Forall_cons_iff in Hpos. destruct Hpos as [Hd0 Hpos].
    cbn [map sumZ fold_right existsb].
    fold (sumZ (map (fun d => Z.b2z (HasCard (AddCard h c) d)) ds)).
    fold (sumZ (map (fun d => Z.b2z (HasCard h d)) ds)).
    rewrite (IH Hpos). rewrite HasCard_AddCard_gen by assumption.
    destruct (Z.eqb_spec c d) as [->|Hne].
    + assert (E : existsb (Z.eqb d) ds = false).
      { destruct (existsb (Z.eqb d) ds) eqn:E; [|reflexivity].
        apply existsb_eqb_In in E. contradiction. }
      rewrite E. destruct (d <? 64), (HasCard h d); cbn [orb andb negb Z.b2z]; lia.
    + cbn [orb andb]. lia.
Qed.

Lemma NumCards_AddCard_gen (h : Hand) (c : Card) :
  0 <= c ->
  NumCards (AddCard h c) = NumCards h + Z.b2z ((c <? 52) && negb (HasCard h c)).
Proof.
  intros Hc. rewrite !NumCards_sum.
  rewrite count_AddCard; [|exact Hc|exact NoDup_cards_from_0|].
  - f_equal. f_equal.
    destruct (Z.ltb_spec c 52) as [Hlt|Hge].
    + assert (E : existsb (Z.eqb c) (cards_from 0) = true).
      { apply existsb_eqb_In, In_cards_from_0. lia. }
      rewrite E. assert (E64 : (c <? 64) = true) by (apply Z.ltb_lt; lia).
      rewrite E64. reflexivity.
    + assert (E : existsb (Z.eqb c) (cards_from 0) = false).
      { destruct (existsb (Z.eqb c) (cards_from 0)) eqn:E; [|reflexivity].
        apply existsb_eqb_In, In_cards_from_0 in E. lia. }
      rewrite E. reflexivity.
  - apply Forall_forall. intros d Hd. apply In_cards_from_0 in Hd. lia.
Qed.

(** X6. [NumCards] after [AddCard]: one more when the card is of the deck
    (below 52) and was not held, the same count otherwise; a card index
    from 52 up, even one that sets a bit of the register, is not counted. *)
Theorem NumCards_AddCard (h : Hand) (c : Card) :
  0 <= c ->
  NumCards (AddCard h c) = NumCards h + Z.b2z ((c <? 52) && negb (HasCard h c)).
Proof. apply NumCards_AddCard_gen. Qed.

Lemma NumCards_AddCard_witness :
  NumCards (AddCard royal_spades 52)
  = NumCards royal_spades + Z.b2z ((52 <? 52) && negb (HasCard royal_spades 52)).
Proof. apply (NumCards_AddCard royal_spades 52). lia. Defined.

Lemma sumZ_map_ext_in (p q : Card -> Z) (cs : list Card) :
  (forall c, In c cs -> p c = q c) -> sumZ (map p cs) = sumZ (map q cs).
Proof.
  intros H. f_equal. apply map_ext_in. exact H.
Qed.

(** X7. [NumCards] lies between 0 and 52 for every register, and depends
    on its low 52 bits only. *)
Theorem NumCards_deck_only (h : Hand) :
  0 <= NumCards h <= 52 /\ NumCards (Z.land h (Z.ones 52)) = NumCards h.
Proof.
  split; [apply NumCards_range|].
  rewrite !NumCards_sum. apply sumZ_map_ext_in. intros c Hc.
  apply In_cards_from_0 in Hc. f_equal.
  rewrite !HasCard_testbit by lia.
  rewrite Z.land_spec, Z.ones_spec_low by lia. apply andb_true_r.
Qed.

(** ** Building hands *)

Lemma fold_AddCard_lor (cs : list Card) (h : Hand) :
  fold_left AddCard cs h = Z.lor h (fold_left AddCard cs 0).
Proof.
  revert h. induction cs as [|c cs IH]; intros h; cbn [fold_left].
  - rewrite Z.lor_0_r. reflexivity.
  - rewrite (IH (AddCard h c)), (IH (AddCard 0 c)). unfold AddCard.
    rewrite Z.lor_0_l, Z.lor_assoc. reflexivity.
Qed.

(** X8. A hand made from two lists of cards, one after the other, is the
    [Combine] of the hands made from each. *)
Theorem CreateHand_app (cs1 cs2 : list Card) :
  CreateHand (cs1 ++ cs2) = Combine (CreateHand cs1) (CreateHand cs2).
Proof.
  unfold CreateHand, Combine. rewrite fold_left_app. apply fold_AddCard_lor.
Qed.

Lemma HasCard_fold_AddCard (cs : list Card) (h : Hand) (d : Card) :
  Forall (fun c => 0 <= c) cs -> 0 <= d < 64 ->
  HasCard (fold_left AddCard cs h) d = existsb (Z.eqb d) cs || HasCard h d.
Proof.
  intros Hcs Hd. revert h. induction Hcs as [|c cs Hc Hcs IH]; intros h; cbn [fold_left existsb].
  - reflexivity.
  - rewrite IH, HasCard_AddCard_gen by lia.
    assert (E : (d <? 64) = true) by (apply Z.ltb_lt; lia). rewrite E, andb_true_r.
    rewrite (Z.eqb_sym c d).
    destruct (d =? c), (existsb (Z.eqb d) cs), (HasCard h d); reflexivity.
Qed.

(** X9. A hand made by [CreateHand] has, among the card indices below 64,
    exactly the cards of the list. *)
Theorem HasCard_CreateHand (cs : list Card) (d : Card) :
  Forall (fun c => 0 <= c) cs -> 0 <= d < 64 ->
  HasCard (CreateHand cs) d = true <-> In d cs.
Proof.
  intros Hcs Hd. unfold CreateHand. rewrite HasCard_fold_AddCard by assumption.
  rewrite orb_false_r. apply existsb_eqb_In.
Qed.

Lemma HasCard_CreateHand_witness :
  HasCard (CreateHand [8; 9; 10; 11; 12]) 10 = true <-> In 10 [8; 9; 10; 11; 12].
Proof.
  apply (HasCard_CreateHand [8; 9; 10; 11; 12] 10).
  - repeat constructor; lia.
  - lia.
Defined.

Lemma NumCards_fold_AddCard (cs : list Card) :
  NoDup cs -> Forall (fun c => 0 <= c < 52) cs ->
  forall h, (forall c, In c cs -> HasCard h c = false) ->
       NumCards (fold_left AddCard cs h) = NumCards h + Z.of_nat (length cs).
Proof.
  intros Hnd. induction Hnd as [|c cs Hc Hnd IH]; intros Hr h Hfree; cbn [fold_left length].
  - lia.
  - apply Forall_cons_iff in Hr. destruct Hr as [Hc52 Hr].
    rewrite (IH Hr).
    + rewrite NumCards_AddCard_gen by lia.
      rewrite (Hfree c) by (left; reflexivity).
      assert (E : (c <? 52) = true) by (apply Z.ltb_lt; lia). rewrite E. cbn. lia.
    + intros d Hd. rewrite Forall_forall in Hr. specialize (Hr d Hd).
      rewrite HasCard_AddCard_gen by lia.
      rewrite (Hfree d) by (right; exact Hd).
      destruct (Z.eqb_spec c d) as [->|Hne]; [contradiction | reflexivity].
Qed.

(** X10. A hand made from distinct cards of the deck holds as many cards as
    the list is long. *)
Theorem NumCards_CreateHand (cs : list Card) :
  NoDup cs -> Forall (fun c => 0 <= c < 52) cs ->
  NumCards (CreateHand cs) = Z.of_nat (length cs).
Proof.
  intros Hnd Hr. unfold CreateHand. rewrite NumCards_fold_AddCard; try assumption.
  - reflexivity.
  - intros c _. reflexivity.
Qed.

Lemma NumCards_CreateHand_witness :
  NumCards (CreateHand [8; 9; 10; 11; 12]) = Z.of_nat (length [8; 9; 10; 11; 12]).
Proof.
  apply (NumCards_CreateHand [8; 9; 10; 11; 12]).
  - repeat constructor; cbn; lia.
  - repeat constructor; lia.
Defined.

Lemma HasCard_Combine_gen (h1 h2 : Hand) (c : Card) :
  0 <= c -> HasCard (Combine h1 h2) c = HasCard h1 c || HasCard h2 c.
Proof.
  intros Hc. rewrite !HasCard_spec by exact Hc. unfold Combine. rewrite Z.lor_spec.
  destruct (c <? 64); reflexivity.
Qed.

Lemma sumZ_map_le (p q : Card -> Z) (cs : list Card) :
  (forall c, In c cs -> p c <= q c) -> sumZ (map p cs) <= sumZ (map q cs).
Proof.
  induction cs as [|c cs IH]; intros H; cbn [map sumZ fold_right].
  - lia.
  - fold (sumZ (map p cs)). fold (sumZ (map q cs)).
    pose proof (H c (or_introl eq_refl)).
    assert (sumZ (map p cs) <= sumZ (map q cs)) by (apply IH; intros d Hd; apply H; right; exact Hd).
    lia.
Qed.

Lemma sumZ_map_add (p q : Card -> Z) (cs : list Card) :
  sumZ (map (fun c => p c + q c) cs) = sumZ (map p cs) + sumZ (map q cs).
Proof.
  induction cs as [|c cs IH]; cbn [map sumZ fold_right].
  - reflexivity.
  - fold (sumZ (map (fun c => p c + q c) cs)). fold (sumZ (map p cs)). fold (sumZ (map q cs)).
    lia.
Qed.

(** X11. [Combine] is the union of two hands: it holds a card when one of
    them does, and it holds at least as many cards as each and at most as
    many as both together. *)
Theorem Combine_union (h1 h2 : Hand) :
  (forall c, 0 <= c -> HasCard (Combine h1 h2) c = HasCard h1 c || HasCard h2 c) /\
  NumCards h1 <= NumCards (Combine h1 h2) /\
  NumCards h2 <= NumCards (Combine h1 h2) /\
  NumCards (Combine h1 h2) <= NumCards h1 + NumCards h2.
Proof.
  split; [intros c Hc; apply HasCard_Combine_gen; exact Hc|].
  rewrite !NumCards_sum.
  assert (Hpos : forall c, In c (cards_from 0) -> 0 <= c).
  { intros c Hc. apply In_cards_from_0 in Hc. lia. }
  repeat split.
  - apply sumZ_map_le. intros c Hc. rewrite HasCard_Combine_gen by auto.
    destruct (HasCard h1 c), (HasCard h2 c); cbn; lia.
  - apply sumZ_map_le. intros c Hc. rewrite HasCard_Combine_gen by auto.
    destruct (HasCard h1 c), (HasCard h2 c); cbn; lia.
  - rewrite <- sumZ_map_add. apply sumZ_map_le. intros c Hc.
    rewrite HasCard_Combine_gen by auto.
    destruct (HasCard h1 c), (HasCard h2 c); cbn; lia.
Qed.

Lemma Combine_union_witness :
  HasCard (Combine royal_spades four_twos) 0
  = HasCard royal_spades 0 || HasCard four_twos 0.
Proof.
  destruct (Combine_union royal_spades four_twos) as [H _]. apply H. lia.
Defined.

(** ** Tallies after a card is added *)

Lemma tally_AddCard (h : Hand) (c : Card) (f : Face) :
  0 <= c < 52 -> 0 <= f < 13 ->
  tally (AddCard h c) f = tally h f + Z.b2z (negb (HasCard h c) && (f =? CardFace c)).
Proof.
  intros Hc Hf. unfold tally, suits. cbn [fold_right].
  rewrite !(ToCard_small f) by lia.
  rewrite !HasCard_AddCard_gen by lia.
  unfold CardFace.
  pose proof (Z.div_mod c 13 ltac:(lia)) as Hdm.
  pose proof (Z.mod_pos_bound c 13 ltac:(lia)) as Hm.
  assert (Hq : 0 <= c / 13 < 4) by (split; [apply Z.div_pos; lia | apply Z.div_lt_upper_bound; lia]).
  assert (E64 : forall s, 0 <= s < 4 -> (s * 13 + f <? 64) = true)
    by (intros s Hs; apply Z.ltb_lt; lia).
  rewrite !E64 by lia. rewrite !andb_true_r.
  destruct (Z.eqb_spec c (0 * 13 + f)) as [E0|N0];
  destruct (Z.eqb_spec c (1 * 13 + f)) as [E1|N1];
  destruct (Z.eqb_spec c (2 * 13 + f)) as [E2|N2];
  destruct (Z.eqb_spec c (3 * 13 + f)) as [E3|N3];
  try lia; cbn [orb];
  destruct (Z.eqb_spec f (c mod 13)) as [Ef|Nf]; try lia;
  try (rewrite <- ?E0, <- ?E1, <- ?E2, <- ?E3;
       destruct (HasCard h c); cbn [negb andb Z.b2z]; lia).
Qed.

(** X12. Adding a card of the deck that the hand does not hold raises the
    tally of its face by one and leaves the other tallies; adding a card
    that is held changes no tally. *)
Theorem FaceCounts_AddCard (h : Hand) (c : Card) (f : Face) :
  0 <= c < 52 -> In f faces ->
  idx (FaceCounts (AddCard h c)) f
  = idx (FaceCounts h) f + Z.b2z (negb (HasCard h c) && (f =? CardFace c)).
Proof.
  intros Hc Hf. rewrite !FaceCounts_idx by exact Hf. apply tally_AddCard; [exact Hc|].
  pose proof faces_are_faces as HF. rewrite Forall_forall in HF.
  specialize (HF f Hf). unfold is_face in HF. lia.
Qed.

Lemma FaceCounts_AddCard_witness :
  idx (FaceCounts (AddCard four_twos 12)) 12
  = idx (FaceCounts four_twos) 12 + Z.b2z (negb (HasCard four_twos 12) && (12 =? CardFace 12)).
Proof.
  apply (FaceCounts_AddCard four_twos 12 12); [lia | cbn; tauto].
Defined.

(** * Further properties of the category scorers *)

Lemma is_face_cases (f : Face) :
  is_face f ->
  f = 0 \/ f = 1 \/ f = 2 \/ f = 3 \/ f = 4 \/ f = 5 \/ f = 6 \/ f = 7 \/ f = 8 \/
  f = 9 \/ f = 10 \/ f = 11 \/ f = 12.
Proof. unfold is_face. lia. Qed.

Lemma is_face_In (f : Face) : is_face f <-> In f faces.
Proof.
  split.
  - intros H. apply is_face_cases in H. unfold faces. cbn [In].
    repeat (destruct H as [H|H]; [subst f; tauto|]). subst f. tauto.
  - intros H. pose proof faces_are_faces as HF. rewrite Forall_forall in HF. auto.
Qed.

Lemma descending_head (f : Z) (fs : list Z) :
  descending (f :: fs) = true -> descending fs = true /\ forall g, In g fs -> g < f.
Proof.
  revert f. induction fs as [|a fs IH]; intros f H.
  - split; [reflexivity | intros g []].
  - cbn [descending] in H. apply andb_true_iff in H. destruct H as [Haf Hd].
    apply Z.ltb_lt in Haf. split; [exact Hd|].
    intros g [<-|Hg]; [exact Haf|].
    destruct (IH a Hd) as [_ Hlt]. specialize (Hlt g Hg). lia.
Qed.

Lemma ascending_head (f : Z) (fs : list Z) :
  ascending (f :: fs) = true -> ascending fs = true /\ forall g, In g fs -> f < g.
Proof.
  revert f. induction fs as [|a fs IH]; intros f H.
  - split; [reflexivity | intros g []].
  - cbn [ascending] in H. apply andb_true_iff in H. destruct H as [Haf Hd].
    apply Z.ltb_lt in Haf. split; [exact Hd|].
    intros g [<-|Hg]; [exact Haf|].
    destruct (IH a Hd) as [_ Hlt]. specialize (Hlt g Hg). lia.
Qed.

(** The two scorers that scan the faces from the ace down and return at the
    first face of a given tally. *)
Section DescendingScan.

Variables (k : Z) (loop : list Z -> list Face -> Face).
Hypothesis loop_nil : forall fc, loop fc [] = 0.
Hypothesis loop_cons :
  forall fc f fs, loop fc (f :: fs) = if idx fc f =? k then uint8 (f + 1) else loop fc fs.

Lemma descending_scan_first (fc : list Z) (fs : list Face) :
  descending fs = true -> Forall is_face fs ->
  (loop fc fs = 0 /\ forall f, In f fs -> idx fc f <> k) \/
  (In (loop fc fs - 1) fs /\ idx fc (loop fc fs - 1) = k /\
   forall g, In g fs -> loop fc fs - 1 < g -> idx fc g <> k).
Proof.
  intros Hd Hfs. induction Hfs as [|f fs Hf Hfs IH].
  - left. split; [apply loop_nil | intros f []].
  - apply descending_head in Hd. destruct Hd as [Hd Hlt].
    rewrite loop_cons. destruct (Z.eqb_spec (idx fc f) k) as [E|N].
    + right. destruct (next_face_score f Hf) as [-> _].
      replace (f + 1 - 1) with f by lia.
      split; [left; reflexivity|]. split; [exact E|].
      intros g [<-|Hg] Hgt; [lia|]. specialize (Hlt g Hg). lia.
    + destruct (IH Hd) as [[H0 Hnone]|[Hin [Hk Hup]]].
      * left. split; [exact H0|]. intros g [<-|Hg]; auto.
      * right. split; [right; exact Hin|]. split; [exact Hk|].
        intros g [<-|Hg] Hgt; auto.
Qed.

Lemma descending_scan_highest (fc : list Z) : highest_with fc k (loop fc faces_desc).
Proof.
  assert (Hin : forall f, is_face f <-> In f faces_desc).
  { intros f. rewrite is_face_In. unfold faces, faces_desc. cbn [In]. tauto. }
  destruct (descending_scan_first fc faces_desc eq_refl faces_desc_are_faces)
    as [[H0 Hnone]|[Hv [Hk Hup]]].
  - left. split; [exact H0|]. intros f Hf. apply Hnone, Hin, Hf.
  - right. split; [apply Hin, Hv|]. split; [exact Hk|].
    intros f Hf. apply Hup, Hin, Hf.
Qed.

End DescendingScan.

(** X13. [fourKindScore] is one more than the highest face of tally 4, and
    0 when no face has tally 4. *)
Theorem fourKindScore_highest (fc : list Z) : highest_with fc 4 (fourKindScore fc).
Proof.
  apply (descending_scan_highest 4 fourKind_loop); reflexivity.
Qed.

(** X14. [highCardScore] is one more than the highest face of tally exactly
    1, and 0 when no face has tally 1: faces held twice or more are passed
    over. *)
Theorem highCardScore_highest (fc : list Z) : highest_with fc 1 (highCardScore fc).
Proof.
  apply (descending_scan_highest 1 highCard_loop); reflexivity.
Qed.

Lemma pair_fold_highest (fc : list Z) (fs : list Face) :
  ascending fs = true -> Forall is_face fs ->
  forall m, (forall g, In g fs -> m <= g) ->
    (fold_left (pair_step fc) fs m = m /\ forall f, In f fs -> idx fc f <> 2) \/
    (In (fold_left (pair_step fc) fs m - 1) fs /\
     idx fc (fold_left (pair_step fc) fs m - 1) = 2 /\
     forall g, In g fs -> fold_left (pair_step fc) fs m - 1 < g -> idx fc g <> 2).
Proof.
  intros Ha Hfs. induction Hfs as [|f fs Hf Hfs IH]; intros m Hm.
  - left. split; [reflexivity | intros f []].
  - apply ascending_head in Ha. destruct Ha as [Ha Hgt].
    assert (Hstep : pair_step fc m f = if idx fc f =? 2 then f + 1 else m).
    { unfold pair_step. destruct (next_face_score f Hf) as [-> _].
      assert (Hmf : (m <? f + 1) = true).
      { apply Z.ltb_lt. specialize (Hm f (or_introl eq_refl)). lia. }
      rewrite Hmf, andb_true_r. reflexivity. }
    cbn [fold_left]. rewrite Hstep.
    destruct (Z.eqb_spec (idx fc f) 2) as [E|N].
    + right.
      destruct (IH Ha (f + 1)) as [[Hv Hnone]|[Hin [Hk Hup]]].
      * intros g Hg. specialize (Hgt g Hg). lia.
      * rewrite Hv. replace (f + 1 - 1) with f by lia.
        split; [left; reflexivity|]. split; [exact E|].
        intros g [<-|Hg] Hlt; [lia | auto].
      * split; [right; exact Hin|]. split; [exact Hk|].
        intros g [<-|Hg] Hlt; [|auto].
        specialize (Hgt _ Hin). lia.
    + destruct (IH Ha m) as [[Hv Hnone]|[Hin [Hk Hup]]].
      * intros g Hg. apply Hm. right. exact Hg.
      * left. split; [exact Hv|]. intros g [<-|Hg]; auto.
      * right. split; [right; exact Hin|]. split; [exact Hk|].
        intros g [<-|Hg] Hlt; auto.
Qed.

Lemma pairScore_highest_gen (fc : list Z) : highest_with fc 2 (pairScore fc).
Proof.
  unfold pairScore.
  destruct (pair_fold_highest fc faces eq_refl faces_are_faces 0)
    as [[Hv Hnone]|[Hin [Hk Hup]]].
  - intros g Hg. apply is_face_In in Hg. unfold is_face in Hg. lia.
  - left. split; [exact Hv|]. intros f Hf. apply Hnone, is_face_In, Hf.
  - right. split; [apply is_face_In, Hin|]. split; [exact Hk|].
    intros f Hf. apply Hup, is_face_In, Hf.
Qed.

(** X15. [pairScore] is one more than the highest face of tally exactly 2,
    and 0 when no face has tally 2. *)
Theorem pairScore_highest (fc : list Z) : highest_with fc 2 (pairScore fc).
Proof. apply pairScore_highest_gen. Qed.

Lemma twoPair_fold (fc : list Z) (fs : list Face) :
  forall m n,
    fold_left (twoPair_step fc) fs (m, n)
    = (fold_left (pair_step fc) fs m,
       n + Z.of_nat (length (filter (fun f => idx fc f =? 2) fs))).
Proof.
  induction fs as [|f fs IH]; intros m n; cbn [fold_left filter].
  - cbn [length]. f_equal. lia.
  - unfold twoPair_step at 2. unfold pair_step at 2.
    destruct (idx fc f =? 2); cbn [andb]; rewrite IH; f_equal.
    + cbn [length]. lia.
Qed.

(** X16. [twoPairScore] is [pairScore] when at least two faces have tally
    exactly 2, and 0 otherwise: it names the higher pair only. *)
Theorem twoPairScore_pairScore (fc : list Z) :
  twoPairScore fc = if 2 <=? count_with fc 2 then pairScore fc else 0.
Proof.
  unfold twoPairScore, pairScore, count_with. rewrite twoPair_fold.
  rewrite Z.add_0_l. reflexivity.
Qed.

Lemma fullHouse_fold (fc : list Z) (fs : list Face) :
  forall m b,
    fold_left (fullHouse_step fc) fs (m, b)
    = (fold_left (threeKind_step fc) fs m,
       b || existsb (fun f => idx fc f =? 2) fs).
Proof.
  induction fs as [|f fs IH]; intros m b; cbn [fold_left existsb].
  - rewrite orb_false_r. reflexivity.
  - unfold fullHouse_step at 2. rewrite IH. unfold threeKind_step at 2.
    f_equal. destruct (idx fc f =? 2), b; reflexivity.
Qed.

(** X17. [fullHouseScore] is [threeKindScore] when some face has tally
    exactly 2, and 0 otherwise. *)
Theorem fullHouseScore_threeKindScore (fc : list Z) :
  fullHouseScore fc
  = if existsb (fun f => idx fc f =? 2) faces then threeKindScore fc else 0.
Proof.
  unfold fullHouseScore, threeKindScore. rewrite fullHouse_fold. reflexivity.
Qed.

Lemma threeKind_fold_unchanged (fc : list Z) (fs : list Face) (m : Face) :
  (forall g, In g fs -> idx fc g <> 3) -> fold_left (threeKind_step fc) fs m = m.
Proof.
  revert m. induction fs as [|f fs IH]; intros m H; cbn [fold_left].
  - reflexivity.
  - unfold threeKind_step at 2.
    destruct (Z.eqb_spec (idx fc f) 3) as [E|N].
    + exfalso. apply (H f); [left; reflexivity | exact E].
    + cbn [andb]. apply IH. intros g Hg. apply H. right. exact Hg.
Qed.

Lemma threeKind_fold_reach (fc : list Z) (f : Face) (fs : list Face) :
  ascending fs = true -> Forall is_face fs -> In f fs ->
  idx fc f = 3 -> idx fc (f - 1) <> 3 ->
  (forall g, In g fs -> f < g -> idx fc g <> 3) ->
  forall m, m < f -> fold_left (threeKind_step fc) fs m = f + 1.
Proof.
  intros Ha Hfs Hin H3 Hprev Hup.
  induction Hfs as [|a fs Hfa Hfs IH]; intros m Hm; [contradiction|].
  apply ascending_head in Ha. destruct Ha as [Ha Hgt].
  cbn [fold_left]. unfold threeKind_step at 2.
  destruct (Z.eq_dec a f) as [->|Hne].
  - rewrite H3. assert (E : (m <? f) = true) by (apply Z.ltb_lt; exact Hm).
    rewrite E. cbn [Z.eqb Pos.eqb andb].
    destruct (next_face_score f Hfa) as [-> _].
    apply threeKind_fold_unchanged. intros g Hg. apply Hup; [right; exact Hg | auto].
  - destruct Hin as [Hin|Hin]; [contradiction|].
    specialize (Hgt f Hin).
    apply IH; try assumption.
    + intros g Hg. apply Hup. right. exact Hg.
    + destruct (Z.eqb_spec (idx fc a) 3) as [E|N]; cbn [andb]; [|exact Hm].
      destruct (m <? a); [|exact Hm].
      destruct (next_face_score a Hfa) as [-> _].
      assert (a <> f - 1) by (intros ->; contradiction). lia.
Qed.

(** X18. [threeKindScore] returns 0 or one more than a face of tally 3 that
    is not the lowest face: three twos alone are never reported.  It
    returns one more than the highest face of tally 3 when that face is not
    the lowest and the face just below it does not have tally 3 too. *)
Theorem threeKindScore_behaviour (fc : list Z) :
  (threeKindScore fc = 0 \/
   (1 <= threeKindScore fc - 1 <= 12 /\ idx fc (threeKindScore fc - 1) = 3)) /\
  (forall f, 1 <= f <= 12 -> idx fc f = 3 -> idx fc (f - 1) <> 3 ->
        (forall g, is_face g -> f < g -> idx fc g <> 3) ->
        threeKindScore fc = f + 1).
Proof.
  split.
  - unfold threeKindScore.
    apply (fold_left_invariant
             (fun v => v = 0 \/ (1 <= v - 1 <= 12 /\ idx fc (v - 1) = 3)) is_face).
    + exact faces_are_faces.
    + left. reflexivity.
    + intros max f Hmax Hf. unfold threeKind_step.
      destruct (Z.eqb_spec (idx fc f) 3) as [E|N]; cbn [andb]; [|exact Hmax].
      destruct (Z.ltb_spec max f) as [Hlt|Hge]; [|exact Hmax].
      right. destruct (next_face_score f Hf) as [-> _].
      replace (f + 1 - 1) with f by lia. unfold is_face in Hf.
      split; [|exact E]. destruct Hmax as [->|[Hr _]]; lia.
  - intros f Hf H3 Hprev Hup. unfold threeKindScore.
    apply threeKind_fold_reach; try assumption.
    + reflexivity.
    + exact faces_are_faces.
    + apply is_face_In. unfold is_face. lia.
    + intros g Hg. apply Hup, is_face_In, Hg.
    + lia.
Qed.

Lemma threeKindScore_behaviour_witness :
  threeKindScore (FaceCounts three_kings) = 11 + 1.
Proof.
  destruct (threeKindScore_behaviour (FaceCounts three_kings)) as [_ H].
  apply (H 11).
  - lia.
  - reflexivity.
  - vm_compute. discriminate.
  - intros g Hg Hlt. assert (E : g = 12) by (unfold is_face in Hg; lia).
    rewrite E. vm_compute. discriminate.
Defined.

(** ** Straight flushes *)

Lemma same_result_eq (a b : option Z) : same_result a b = true -> a = b.
Proof.
  destruct a as [x|], b as [y|]; cbn; intros H; try discriminate; try reflexivity.
  apply Z.eqb_eq in H. subst y. reflexivity.
Qed.

Lemma straightFlush_suit_scan (h : Hand) (s : Suit) (fs : list Face) :
  forall runLength,
    straightFlush_suit h s fs runLength = run_scan (held h s) fs runLength.
Proof.
  induction fs as [|f fs IH]; intros runLength; cbn [straightFlush_suit run_scan].
  - reflexivity.
  - unfold held at 1. destruct (HasCard h (ToCard f s)); [|apply IH].
    cbv zeta. destruct (runLength + 1 =? 5); [reflexivity | apply IH].
Qed.

Lemma run_scan_ext (p q : Face -> bool) (fs : list Face) :
  (forall f, In f fs -> p f = q f) ->
  forall runLength, run_scan p fs runLength = run_scan q fs runLength.
Proof.
  induction fs as [|f fs IH]; intros H runLength; cbn [run_scan].
  - reflexivity.
  - rewrite <- (H f) by (left; reflexivity).
    rewrite !IH by (intros g Hg; apply H; right; exact Hg). reflexivity.
Qed.

Lemma lowest_run_ext (p q : Face -> bool) :
  (forall f, In f faces -> p f = q f) -> lowest_run p = lowest_run q.
Proof.
  intros H. unfold lowest_run. f_equal. apply find_ext_in.
  intros hi Hhi. apply run5_ext; [exact H|].
  unfold run_tops_asc, run_tops in *. cbn [In] in *. tauto.
Qed.

Lemma run_check_all : all_bools 13 run_check = true.
Proof. vm_compute. reflexivity. Qed.

Lemma run_scan_lowest_run (p : Face -> bool) : run_scan p faces 0 = lowest_run p.
Proof.
  pose proof (all_bools_sound 13 run_check run_check_all (map p faces) eq_refl) as H.
  unfold run_check in H. apply same_result_eq in H.
  rewrite <- (run_scan_ext p _ faces) in H by apply hits_of_faces.
  rewrite <- (lowest_run_ext p) in H by apply hits_of_faces.
  exact H.
Qed.

Lemma straightFlush_suits_first (h : Hand) (ss : list Suit) :
  straightFlush_suits h ss = first_suit (fun s => lowest_run (held h s)) ss.
Proof.
  induction ss as [|s ss IH]; cbn [straightFlush_suits first_suit].
  - reflexivity.
  - rewrite straightFlush_suit_scan, run_scan_lowest_run, IH. reflexivity.
Qed.

(** X19. [straightFlushScore] takes the first suit, in the order spades,
    hearts, diamonds, clubs, that holds five faces in sequence, and returns
    one more than the top of the lowest such run of that suit; it is 0 when
    no suit has a run of five. *)
Theorem straightFlushScore_lowest_run (h : Hand) :
  straightFlushScore h = first_suit (fun s => lowest_run (held h s)) suits.
Proof. apply straightFlush_suits_first. Qed.

(** ** Flushes *)

Lemma idx_upd_same (xs : list Z) (i v : Z) :
  (Z.to_nat i < length xs)%nat -> idx (set_idx xs i v) i = v.
Proof. intros H. unfold idx, set_idx. apply nth_upd_same. exact H. Qed.

Lemma idx_upd_other (xs : list Z) (i j v : Z) :
  0 <= i -> 0 <= j -> i <> j -> idx (set_idx xs i v) j = idx xs j.
Proof.
  intros Hi Hj Hne. unfold idx, set_idx. apply nth_upd_other. lia.
Qed.

(** The cards of one suit touch that suit's entries of the two slices only,
    and what they do to them is [flush_scan]. *)
Lemma flush_loop_suit (h : Hand) (s : Suit) (fs : list Face) :
  0 <= s < 4 -> Forall is_face fs ->
  forall SuitCount SuitMax,
    length SuitCount = 4%nat -> length SuitMax = 4%nat ->
    exists SuitCount' SuitMax',
      length SuitCount' = 4%nat /\ length SuitMax' = 4%nat /\
      (forall s', 0 <= s' -> s' <> s ->
             idx SuitCount' s' = idx SuitCount s' /\ idx SuitMax' s' = idx SuitMax s') /\
      forall rest,
        flush_loop h (suit_cards s fs ++ rest) SuitCount SuitMax
        = match flush_scan (fun f => HasCard h (s * 13 + f)) fs
                  (idx SuitCount s) (idx SuitMax s) with
          | Some v => v
          | None => flush_loop h rest SuitCount' SuitMax'
          end.
Proof.
  intros Hs Hfs. induction Hfs as [|f fs Hf Hfs IH]; intros SC SM HlC HlM.
  - exists SC, SM. repeat split; try assumption. 
  - unfold suit_cards. cbn [map app flush_loop flush_scan]. fold (suit_cards s fs).
    assert (Hf' : 0 <= f < 13) by (unfold is_face in Hf; lia).
    destruct (ToCard_parts f s Hf' Hs) as [-> ->].
    destruct (HasCard h (s * 13 + f)).
    + cbv zeta.
      set (SC1 := incr SC s).
      set (SM1 := if idx SM s <? uint8 (f + 1) then set_idx SM s (uint8 (f + 1)) else SM).
      assert (HC1 : idx SC1 s = uint8 (idx SC s + 1)).
      { unfold SC1, incr. apply idx_upd_same. lia. }
      assert (HM1 : idx SM1 s = if idx SM s <? uint8 (f + 1) then uint8 (f + 1) else idx SM s).
      { unfold SM1. destruct (idx SM s <? uint8 (f + 1)); [|reflexivity].
        apply idx_upd_same. lia. }
      assert (HlC1 : length SC1 = 4%nat).
      { unfold SC1, incr, set_idx. rewrite upd_length. exact HlC. }
      assert (HlM1 : length SM1 = 4%nat).
      { unfold SM1. destruct (idx SM s <? uint8 (f + 1)); [|exact HlM].
        unfold set_idx. rewrite upd_length. exact HlM. }
      assert (Hother : forall s', 0 <= s' -> s' <> s ->
                idx SC1 s' = idx SC s' /\ idx SM1 s' = idx SM s').
      { intros s' Hs' Hne. split.
        - unfold SC1, incr. apply idx_upd_other; lia.
        - unfold SM1. destruct (idx SM s <? uint8 (f + 1)); [|reflexivity].
          apply idx_upd_other; lia. }
      rewrite HC1, HM1.
      destruct (uint8 (idx SC s + 1) =? 5).
      * exists SC, SM. repeat split; try assumption.
      * destruct (IH SC1 SM1 HlC1 HlM1) as [SC' [SM' [HlC' [HlM' [Hoth Hrest]]]]].
        exists SC', SM'. split; [exact HlC'|]. split; [exact HlM'|]. split.
        -- intros s' Hs' Hne. destruct (Hoth s' Hs' Hne) as [-> ->]. apply Hother; assumption.
        -- intros rest. rewrite Hrest, HC1, HM1. reflexivity.
    + apply IH; assumption.
Qed.

Lemma flush_scan_ext (p q : Face -> bool) (fs : list Face) :
  (forall f, In f fs -> p f = q f) ->
  forall count max, flush_scan p fs count max = flush_scan q fs count max.
Proof.
  induction fs as [|f fs IH]; intros H count max; cbn [flush_scan].
  - reflexivity.
  - rewrite <- (H f) by (left; reflexivity).
    rewrite !IH by (intros g Hg; apply H; right; exact Hg). reflexivity.
Qed.

Lemma filter_ext_in' (p q : Face -> bool) (fs : list Face) :
  (forall f, In f fs -> p f = q f) -> filter p fs = filter q fs.
Proof.
  induction fs as [|f fs IH]; intros H; cbn [filter].
  - reflexivity.
  - rewrite <- (H f) by (left; reflexivity).
    rewrite IH by (intros g Hg; apply H; right; exact Hg). reflexivity.
Qed.

Lemma flush_check_all : all_bools 13 flush_check = true.
Proof. vm_compute. reflexivity. Qed.

Lemma flush_scan_fifth_lowest (p : Face -> bool) :
  flush_scan p faces 0 0 = fifth_lowest p.
Proof.
  pose proof (all_bools_sound 13 flush_check flush_check_all (map p faces) eq_refl) as H.
  unfold flush_check in H. apply same_result_eq in H.
  rewrite <- (flush_scan_ext p _ faces) in H by apply hits_of_faces.
  unfold fifth_lowest in H.
  rewrite <- (filter_ext_in' p _ faces) in H by apply hits_of_faces.
  exact H.
Qed.

Lemma flush_scan_held (h : Hand) (s : Suit) :
  0 <= s < 4 ->
  flush_scan (fun f => HasCard h (s * 13 + f)) faces 0 0 = fifth_lowest (held h s).
Proof.
  intros Hs. rewrite <- flush_scan_fifth_lowest. apply flush_scan_ext.
  intros f Hf. unfold held. rewrite ToCard_small; [reflexivity | | exact Hs].
  apply is_face_In in Hf. unfold is_face in Hf. lia.
Qed.

Lemma cards_by_suit :
  cards_from 0
  = suit_cards 0 faces ++ suit_cards 1 faces ++ suit_cards 2 faces ++ suit_cards 3 faces ++ [].
Proof. reflexivity. Qed.

Lemma flushScore_first_suit (h : Hand) :
  flushScore h = first_suit (fun s => fifth_lowest (held h s)) suits.
Proof.
  unfold flushScore. rewrite cards_by_suit.
  assert (Hz : forall s, idx (repeat 0 4) s = 0).
  { intros s. apply (idx_Forall (fun x => x = 0)); [repeat constructor | reflexivity]. }
  pose proof faces_are_faces as HF.
  destruct (flush_loop_suit h 0 faces ltac:(lia) HF (repeat 0 4) (repeat 0 4) eq_refl eq_refl)
    as [C0 [M0 [HlC0 [HlM0 [H0 R0]]]]].
  destruct (flush_loop_suit h 1 faces ltac:(lia) HF C0 M0 HlC0 HlM0)
    as [C1 [M1 [HlC1 [HlM1 [H1 R1]]]]].
  destruct (flush_loop_suit h 2 faces ltac:(lia) HF C1 M1 HlC1 HlM1)
    as [C2 [M2 [HlC2 [HlM2 [H2 R2]]]]].
  destruct (flush_loop_suit h 3 faces ltac:(lia) HF C2 M2 HlC2 HlM2)
    as [C3 [M3 [HlC3 [HlM3 [H3 R3]]]]].
  assert (E1 : idx C0 1 = 0 /\ idx M0 1 = 0).
  { destruct (H0 1) as [-> ->]; try lia. rewrite !Hz. split; reflexivity. }
  assert (E2 : idx C1 2 = 0 /\ idx M1 2 = 0).
  { destruct (H1 2) as [-> ->]; try lia. destruct (H0 2) as [-> ->]; try lia.
    rewrite !Hz. split; reflexivity. }
  assert (E3 : idx C2 3 = 0 /\ idx M2 3 = 0).
  { destruct (H2 3) as [-> ->]; try lia. destruct (H1 3) as [-> ->]; try lia.
    destruct (H0 3) as [-> ->]; try lia. rewrite !Hz. split; reflexivity. }
  destruct E1 as [EC1 EM1], E2 as [EC2 EM2], E3 as [EC3 EM3].
  rewrite R0, R1, R2, R3, !Hz, EC1, EM1, EC2, EM2, EC3, EM3.
  rewrite !flush_scan_held by lia.
  unfold suits. cbn [first_suit flush_loop]. reflexivity.
Qed.

(** X20. [flushScore] takes the first suit, in the order spades, hearts,
    diamonds, clubs, of which the hand holds five cards or more, and
    returns one more than the fifth face of that suit counted from the
    lowest: the top card of the flush when the suit has exactly five cards,
    a lower one when it has more.  It is 0 when no suit has five cards. *)
Theorem flushScore_fifth_lowest (h : Hand) :
  flushScore h = first_suit (fun s => fifth_lowest (held h s)) suits.
Proof. apply flushScore_first_suit. Qed.

(** * Further properties of the composite ranker *)

Lemma scorers_entries (h : Hand) (s t : Z) :
  In (s, t) (scorers h) -> is_score s /\ 0 <= t <= 8.
Proof.
  unfold scorers. cbn [In]. intros H.
  repeat (destruct H as [H|H]; [injection H as <- <-; split; [auto with scores | lia]|]).
  contradiction.
Qed.

Lemma Score_Rank_spec (h : Hand) : Score h = Rank_spec h.
Proof.
  rewrite Score_unwrapped.
  unfold Rank_spec, first_nonzero, scorers. cbv zeta. cbn [find fst].
  repeat match goal with
         | |- context [negb (?s =? 0)] =>
             destruct (Z.eqb_spec s 0); cbn [negb]; [|lia]
         end.
  assumption.
Qed.

(** X21. [Score] lies between 0 and 117, and when the first scorer that is
    not zero has tier [t] it lies in the band of that tier, from [13 t + 1]
    to [13 t + 13]: the bands do not meet, so a hand of a higher category
    always has the higher rank. *)
Theorem Score_bands (h : Hand) :
  0 <= Score h <= 117 /\
  (forall s t, first_nonzero (scorers h) = Some (s, t) ->
          0 <= t <= 8 /\ 13 * t + 1 <= Score h <= 13 * t + 13) /\
  (first_nonzero (scorers h) = None -> Score h = 0).
Proof.
  rewrite Score_Rank_spec. unfold Rank_spec.
  destruct (first_nonzero (scorers h)) as [[s t]|] eqn:E.
  - unfold first_nonzero in E. apply find_some in E. destruct E as [Hin Hnz].
    cbn [fst] in Hnz. apply negb_true_iff, Z.eqb_neq in Hnz.
    apply scorers_entries in Hin. destruct Hin as [Hs Ht]. unfold is_score in Hs.
    split; [lia|]. split; [|discriminate].
    intros s' t' [= <- <-]. lia.
  - split; [lia|]. split; [discriminate | reflexivity].
Qed.

Lemma Score_bands_witness :
  0 <= 8 <= 8 /\ 13 * 8 + 1 <= Score royal_spades <= 13 * 8 + 13.
Proof.
  destruct (Score_bands royal_spades) as [_ [H _]]. apply (H 13 8). reflexivity.
Defined.

Lemma Score_royal (h : Hand) : Score h = 117 <-> straightFlushScore h = 13.
Proof.
  rewrite Score_unwrapped. cbv zeta.
  pose proof (fourKindScore_range (FaceCounts h)) as H4.
  pose proof (fullHouseScore_range (FaceCounts h)) as Hfh.
  pose proof (flushScore_range h) as Hfl.
  pose proof (straightScore_range h) as Hst.
  pose proof (threeKindScore_range (FaceCounts h)) as H3.
  pose proof (twoPairScore_range (FaceCounts h)) as H2.
  pose proof (pairScore_range (FaceCounts h)) as H1.
  pose proof (highCardScore_range (FaceCounts h)) as H0.
  unfold is_score in *.
  destruct (Z.eqb_spec (straightFlushScore h) 0) as [E|N]; [|lia].
  repeat match goal with
         | |- context [?s =? 0] => destruct (s =? 0)
         end; lia.
Qed.

(** X22. [Describe] answers "royal flush" exactly for the hands of rank
    117, the top of the scale. *)
Theorem Describe_royal_flush (h : Hand) :
  Describe h = "royal flush"%string <-> Score h = 117.
Proof.
  rewrite Score_royal. unfold Describe. cbv zeta.
  destruct (Z.eqb_spec (straightFlushScore h) 13) as [E|N].
  - tauto.
  - split; [|contradiction].
    repeat match goal with
           | |- context [negb (?s =? 0)] => destruct (s =? 0); cbn [negb]
           end; discriminate.
Qed.

Lemma tier_of_rank_band (s : Z) :
  1 <= s <= 13 ->
  tier_of_rank (s + 104) = StraightFlush /\ tier_of_rank (s + 91) = FourKind /\
  tier_of_rank (s + 78) = FullHouse /\ tier_of_rank (s + 65) = Flush /\
  tier_of_rank (s + 52) = Straight /\ tier_of_rank (s + 39) = ThreeKind /\
  tier_of_rank (s + 26) = TwoPair /\ tier_of_rank (s + 13) = Pair.
Proof.
  intros Hs. unfold tier_of_rank.
  repeat split;
    repeat match goal with
           | |- context [?a <? ?b] => destruct (Z.ltb_spec a b); try lia
           end; reflexivity.
Qed.

Lemma tier_of_rank_low (s : Z) : 0 <= s <= 13 -> tier_of_rank s = HighCard.
Proof.
  intros Hs. unfold tier_of_rank.
  repeat match goal with
         | |- context [?a <? ?b] => destruct (Z.ltb_spec a b); try lia
         end; reflexivity.
Qed.

(** X23. Outside the four-of-a-kind and straight tiers, for which it has no
    label, [Describe] names the tier of [Score]; in the straight-flush tier
    it says "royal flush" at rank 117 and "straight flush" below. *)
Theorem Describe_tier (h : Hand) :
  tier_of_rank (Score h) <> FourKind ->
  tier_of_rank (Score h) <> Straight ->
  Some (Describe h) = label (tier_of_rank (Score h)) (Score h =? 117).
Proof.
  rewrite Score_unwrapped. unfold Describe. cbv zeta.
  pose proof (straightFlushScore_range h) as Hsf.
  pose proof (fourKindScore_range (FaceCounts h)) as H4.
  pose proof (fullHouseScore_range (FaceCounts h)) as Hfh.
  pose proof (flushScore_range h) as Hfl.
  pose proof (straightScore_range h) as Hst.
  pose proof (threeKindScore_range (FaceCounts h)) as H3.
  pose proof (twoPairScore_range (FaceCounts h)) as H2.
  pose proof (pairScore_range (FaceCounts h)) as H1.
  pose proof (highCardScore_range (FaceCounts h)) as H0.
  unfold is_score in *.
  destruct (Z.eqb_spec (straightFlushScore h) 0) as [Esf|Nsf]; cbn [negb].
  2:{ intros _ _.
      destruct (tier_of_rank_band (straightFlushScore h) ltac:(lia)) as [-> _].
      cbn [label].
      destruct (Z.eqb_spec (straightFlushScore h) 13) as [E|N].
      - rewrite E. reflexivity.
      - destruct (Z.eqb_spec (straightFlushScore h + 104) 117); [lia | reflexivity]. }
  rewrite Esf. cbn [Z.eqb].
  destruct (Z.eqb_spec (fourKindScore (FaceCounts h)) 0) as [E4|N4].
  2:{ intros Hno _. exfalso. apply Hno.
      apply (tier_of_rank_band (fourKindScore (FaceCounts h))). lia. }
  destruct (Z.eqb_spec (fullHouseScore (FaceCounts h)) 0) as [Efh|Nfh]; cbn [negb].
  2:{ intros _ _.
      destruct (tier_of_rank_band (fullHouseScore (FaceCounts h)) ltac:(lia))
        as [_ [_ [-> _]]].
      reflexivity. }
  destruct (Z.eqb_spec (flushScore h) 0) as [Efl|Nfl]; cbn [negb].
  2:{ intros _ _.
      destruct (tier_of_rank_band (flushScore h) ltac:(lia)) as [_ [_ [_ [-> _]]]].
      reflexivity. }
  destruct (Z.eqb_spec (straightScore h) 0) as [Est|Nst].
  2:{ intros _ Hno. exfalso. apply Hno.
      apply (tier_of_rank_band (straightScore h)). lia. }
  destruct (Z.eqb_spec (threeKindScore (FaceCounts h)) 0) as [E3|N3]; cbn [negb].
  2:{ intros _ _.
      destruct (tier_of_rank_band (threeKindScore (FaceCounts h)) ltac:(lia))
        as [_ [_ [_ [_ [_ [-> _]]]]]].
      reflexivity. }
  destruct (Z.eqb_spec (twoPairScore (FaceCounts h)) 0) as [E2|N2]; cbn [negb].
  2:{ intros _ _.
      destruct (tier_of_rank_band (twoPairScore (FaceCounts h)) ltac:(lia))
        as [_ [_ [_ [_ [_ [_ [-> _]]]]]]].
      reflexivity. }
  destruct (Z.eqb_spec (pairScore (FaceCounts h)) 0) as [E1|N1]; cbn [negb].
  2:{ intros _ _.
      destruct (tier_of_rank_band (pairScore (FaceCounts h)) ltac:(lia))
        as [_ [_ [_ [_ [_ [_ [_ ->]]]]]]].
      reflexivity. }
  intros _ _. rewrite tier_of_rank_low by lia. reflexivity.
Qed.

Lemma Describe_tier_witness :
  Some (Describe kings_full_of_queens)
  = label (tier_of_rank (Score kings_full_of_queens)) (Score kings_full_of_queens =? 117).
Proof.
  apply (Describe_tier kings_full_of_queens); vm_compute; discriminate.
Defined.

(** * Further properties of the equity solver *)

Lemma draw_step_eq (h1 h2 : Hand) (sub : Card -> Q) (ch : Q) (nc : Z) (c : Card) :
  draw_step h1 h2 sub (ch, nc) c
  = if free h1 h2 c then ((ch + sub c)%Q, nc + 1) else (ch, nc).
Proof. reflexivity. Qed.

Lemma draw_loop_range (h1 h2 : Hand) (sub : Card -> Q) (cs : list Card) :
  (forall c, 0 <= sub c <= 1)%Q ->
  (0 <= (let '(ch, nc) := draw_loop h1 h2 sub cs in
         if nc =? 0 then 1 # 2 else ch / inject_Z nc) <= 1)%Q.
Proof.
  intros Hsub. unfold draw_loop.
  set (r := fold_left (draw_step h1 h2 sub) cs (0%Q, 0)).
  assert (H : (0 <= fst r <= inject_Z (snd r))%Q /\ 0 <= snd r).
  { unfold r.
    apply (fold_left_invariant
             (fun st : Q * Z => (0 <= fst st <= inject_Z (snd st))%Q /\ 0 <= snd st)
             (fun _ : Card => True)).
    - apply Forall_forall. intros; exact I.
    - cbn. split; [split; apply Qle_refl | lia].
    - intros [ch nc] c [[H0 H1] Hn] _. rewrite draw_step_eq.
      destruct (free h1 h2 c); cbn [fst snd] in *; [|tauto].
      destruct (Hsub c) as [Hs0 Hs1].
      split; [split|lia].
      + rewrite <- (Qplus_0_l 0). apply Qplus_le_compat; assumption.
      + rewrite inject_Z_plus. apply Qplus_le_compat; assumption. }
  destruct r as [ch nc].
  cbn [fst snd] in H. destruct H as [[H0 H1] Hn].
  destruct (Z.eqb_spec nc 0) as [E|N].
  - split; discriminate.
  - assert (Hpos : (0 < inject_Z nc)%Q).
    { change 0%Q with (inject_Z 0). rewrite <- Zlt_Qlt. lia. }
    split.
    + apply Qle_shift_div_l; [exact Hpos|]. rewrite Qmult_0_l. exact H0.
    + apply Qle_shift_div_r; [exact Hpos|]. rewrite Qmult_1_l. exact H1.
Qed.

Lemma _compare_range (lookahead : nat) :
  forall (h1 : Hand) (l1 : Z) (h2 : Hand) (l2 : Z) (firstCard : Card),
    (0 <= _compare h1 l1 h2 l2 firstCard lookahead <= 1)%Q.
Proof.
  induction lookahead as [|n IH]; intros h1 l1 h2 l2 firstCard; cbn [_compare].
  - destruct (Score h2 <? Score h1); [split; discriminate|].
    destruct (Score h1 <? Score h2); split; discriminate.
  - destruct (l1 <? l2); [|destruct (l2 <? l1)];
      apply draw_loop_range; intros c; apply IH.
Qed.

(** X24. The result of [Compare] is a chance: it lies between 0 and 1 for
    all hands and every lookahead. *)
Theorem Compare_range (h1 h2 : Hand) (lookahead : Z) :
  (0 <= Compare h1 h2 lookahead <= 1)%Q.
Proof. unfold Compare. apply _compare_range. Qed.

(** X25. A hand against itself has chance one half, for every lookahead. *)
Theorem Compare_self (h : Hand) (lookahead : Z) :
  (Compare h h lookahead == 1 # 2)%Q.
Proof.
  unfold Compare. rewrite Z.ltb_irrefl.
  set (x := _compare h (NumCards h) h (NumCards h) 0
              (Z.to_nat (uint8 (lookahead - NumCards h)))).
  assert (H : (x + x == 1)%Q) by apply _compare_swap.
  setoid_replace x with ((x + x) * (1 # 2))%Q by ring.
  rewrite H. reflexivity.
Qed.

Lemma draw_loop_none (h1 h2 : Hand) (sub : Card -> Q) (cs : list Card) :
  (forall c, In c cs -> free h1 h2 c = false) -> draw_loop h1 h2 sub cs = (0%Q, 0).
Proof.
  unfold draw_loop. generalize (0%Q, 0). induction cs as [|c cs IH]; intros [ch nc] H.
  - reflexivity.
  - cbn [fold_left]. rewrite draw_step_eq, (H c) by (left; reflexivity).
    apply IH. intros d Hd. apply H. right. exact Hd.
Qed.

(** X26. When draw steps remain and no card from [firstCard] up to 51 is
    free of both hands, [_compare] returns one half whatever the hands are
    worth; this is so in every branch that has drawn card 51 and still has
    a step to make, where [firstCard] is 52. *)
Theorem _compare_no_candidate (h1 : Hand) (l1 : Z) (h2 : Hand) (l2 : Z)
        (firstCard : Card) (lookahead : nat) :
  (forall c, In c (cards_from firstCard) -> free h1 h2 c = false) ->
  _compare h1 l1 h2 l2 firstCard (S lookahead) = (1 # 2)%Q.
Proof.
  intros H. cbn [_compare].
  destruct (l1 <? l2); [|destruct (l2 <? l1)];
    rewrite draw_loop_none by exact H; reflexivity.
Qed.

Lemma _compare_no_candidate_witness :
  _compare royal_spades 5 four_twos 4 52 1 = (1 # 2)%Q.
Proof.
  apply (_compare_no_candidate royal_spades 5 four_twos 4 52 0).
  intros c Hc. contradiction.
Defined.

(** * Random hands *)

Lemma RandomHand_loop_eq (draws : list Z) (size : Z) (h : Hand) :
  RandomHand_loop draws size h
  = if NumCards h <? size then
      match draws with
      | [] => None
      | r :: draws' => RandomHand_loop draws' size (AddCard h (uint8 r))
      end
    else Some h.
Proof. destruct draws; reflexivity. Qed.

Lemma RandomHand_loop_count (draws : list Z) (size : Z) :
  forall h h', NumCards h <= size -> RandomHand_loop draws size h = Some h' ->
          NumCards h' = size.
Proof.
  induction draws as [|r draws IH]; intros h h' Hle; rewrite RandomHand_loop_eq;
    destruct (Z.ltb_spec (NumCards h) size) as [Hlt|Hge]; try discriminate;
    try (intros [= <-]; lia).
  apply IH. rewrite NumCards_AddCard_gen by apply uint8_range.
  destruct ((uint8 r <? 52) && negb (HasCard h (uint8 r))); cbn [Z.b2z]; lia.
Qed.

Lemma RandomHand_loop_cards (draws : list Z) (size : Z) (c : Card) :
  0 <= c < 64 ->
  forall h h', RandomHand_loop draws size h = Some h' -> HasCard h' c = true ->
          HasCard h c = true \/ In c (map uint8 draws).
Proof.
  intros Hc. induction draws as [|r draws IH]; intros h h'; rewrite RandomHand_loop_eq;
    destruct (NumCards h <? size); try discriminate;
    try (intros [= <-] H; left; exact H).
  intros Hrun Hhas. destruct (IH _ _ Hrun Hhas) as [H|H].
  - rewrite HasCard_AddCard_gen in H by (pose proof (uint8_range r); lia).
    apply orb_true_iff in H. destruct H as [H|H]; [|left; exact H].
    apply andb_true_iff in H. destruct H as [H _]. apply Z.eqb_eq in H.
    right. left. exact H.
  - right. right. exact H.
Qed.

(** X27. When [RandomHand] returns, the hand holds exactly [size] cards and
    every card it holds has been drawn. *)
Theorem RandomHand_size (draws : list Z) (size : Z) (h : Hand) :
  0 <= size -> RandomHand draws size = Some h ->
  NumCards h = size /\
  forall c, 0 <= c < 64 -> HasCard h c = true -> In c (map uint8 draws).
Proof.
  intros Hs Hrun. unfold RandomHand in Hrun. split.
  - apply (RandomHand_loop_count draws size 0 h); [exact Hs | exact Hrun].
  - intros c Hc Hhas.
    destruct (RandomHand_loop_cards draws size c Hc 0 h Hrun Hhas) as [H|H];
      [discriminate H | exact H].
Qed.

Lemma RandomHand_size_witness :
  NumCards royal_spades = 5 /\
  forall c, 0 <= c < 64 -> HasCard royal_spades c = true ->
       In c (map uint8 [8; 9; 9; 10; 11; 8; 12; 3]).
Proof.
  apply (RandomHand_size [8; 9; 9; 10; 11; 8; 12; 3] 5 royal_spades).
  - lia.
  - reflexivity.
Defined.

(** X28. For a size above 52 the loop of [RandomHand] never reaches its
    exit, whatever is drawn: no hand counts more than 52 cards. *)
Theorem RandomHand_above_deck (draws : list Z) (size : Z) :
  52 < size -> RandomHand draws size = None.
Proof.
  intros Hs. unfold RandomHand. generalize (0 : Hand).
  induction draws as [|r draws IH]; intros h; rewrite RandomHand_loop_eq;
    pose proof (NumCards_range h) as Hr;
    destruct (Z.ltb_spec (NumCards h) size); try lia; [reflexivity | apply IH].
Qed.

Lemma RandomHand_above_deck_witness : RandomHand [0; 1; 2] 53 = None.
Proof. apply (RandomHand_above_deck [0; 1; 2] 53). lia. Defined.

Lemma RandomHand_loop_distinct (cs : list Card) :
  NoDup cs -> Forall (fun c => 0 <= c < 52) cs ->
  forall h, (forall c, In c cs -> HasCard h c = false) ->
       RandomHand_loop cs (NumCards h + Z.of_nat (length cs)) h
       = Some (fold_left AddCard cs h).
Proof.
  intros Hnd. induction Hnd as [|c cs Hc Hnd IH]; intros Hr h Hfree;
    rewrite RandomHand_loop_eq.
  - cbn [length fold_left]. rewrite Z.add_0_r, Z.ltb_irrefl. reflexivity.
  - apply Forall_cons_iff in Hr. destruct Hr as [Hc52 Hr].
    assert (E : (NumCards h <? NumCards h + Z.of_nat (length (c :: cs))) = true).
    { apply Z.ltb_lt. cbn [length]. lia. }
    rewrite E. cbn [fold_left]. rewrite uint8_small by lia.
    assert (En : NumCards (AddCard h c) = NumCards h + 1).
    { rewrite NumCards_AddCard_gen by lia. rewrite (Hfree c) by (left; reflexivity).
      assert (E52 : (c <? 52) = true) by (apply Z.ltb_lt; lia). rewrite E52. reflexivity. }
    replace (NumCards h + Z.of_nat (length (c :: cs)))
      with (NumCards (AddCard h c) + Z.of_nat (length cs))
      by (rewrite En; cbn [length]; lia).
    apply (IH Hr). intros d Hd. rewrite Forall_forall in Hr. specialize (Hr d Hd).
    rewrite HasCard_AddCard_gen by lia. rewrite (Hfree d) by (right; exact Hd).
    destruct (Z.eqb_spec c d) as [->|Hne]; [contradiction | reflexivity].
Qed.

(** X29. When the source yields distinct cards of the deck, [RandomHand]
    for as many cards returns the hand that [CreateHand] makes of them. *)
Theorem RandomHand_distinct_draws (cs : list Card) :
  NoDup cs -> Forall (fun c => 0 <= c < 52) cs ->
  RandomHand cs (Z.of_nat (length cs)) = Some (CreateHand cs).
Proof.
  intros Hnd Hr. unfold RandomHand, CreateHand.
  rewrite <- (RandomHand_loop_distinct cs Hnd Hr 0) by (intros c _; reflexivity).
  reflexivity.
Qed.

Lemma RandomHand_distinct_draws_witness :
  RandomHand [8; 9; 10; 11; 12] (Z.of_nat (length [8; 9; 10; 11; 12]))
  = Some (CreateHand [8; 9; 10; 11; 12]).
Proof.
  apply (RandomHand_distinct_draws [8; 9; 10; 11; 12]).
  - repeat constructor; cbn; lia.
  - repeat constructor; lia.
Defined.

(** * Ranking looks at the cards of the deck only *)

Section SameDeckCards.

Variables h h' : Hand.
Hypothesis same_cards : forall c, 0 <= c < 52 -> HasCard h c = HasCard h' c.

Lemma held_same (s : Suit) (f : Face) :
  In s suits -> In f faces -> held h s f = held h' s f.
Proof.
  intros Hs Hf. unfold held. apply same_cards.
  apply is_face_In in Hf. unfold is_face in Hf.
  assert (0 <= s < 4) by (unfold suits in Hs; cbn [In] in Hs; lia).
  rewrite ToCard_small by lia. lia.
Qed.

Lemma first_suit_ext (r r' : Suit -> option Face) (ss : list Suit) :
  (forall s, In s ss -> r s = r' s) -> first_suit r ss = first_suit r' ss.
Proof.
  induction ss as [|s ss IH]; intros H; cbn [first_suit].
  - reflexivity.
  - rewrite <- (H s) by (left; reflexivity).
    rewrite IH by (intros t Ht; apply H; right; exact Ht). reflexivity.
Qed.

Lemma straightFlushScore_same : straightFlushScore h = straightFlushScore h'.
Proof.
  unfold straightFlushScore. rewrite !straightFlush_suits_first.
  apply first_suit_ext. intros s Hs. apply lowest_run_ext.
  intros f Hf. apply held_same; assumption.
Qed.

Lemma flushScore_same : flushScore h = flushScore h'.
Proof.
  rewrite !flushScore_first_suit. apply first_suit_ext. intros s Hs.
  unfold fifth_lowest. f_equal. f_equal. apply filter_ext_in'.
  intros f Hf. apply held_same; assumption.
Qed.

Lemma hit_same (f : Face) : In f faces -> hit h f = hit h' f.
Proof.
  intros Hf. unfold hit, suits. cbn [existsb].
  fold (held h 0 f) (held h 1 f) (held h 2 f) (held h 3 f).
  fold (held h' 0 f) (held h' 1 f) (held h' 2 f) (held h' 3 f).
  rewrite !(fun s Hs => held_same s f Hs Hf) by (unfold suits; cbn [In]; tauto).
  reflexivity.
Qed.

Lemma straightScore_same : straightScore h = straightScore h'.
Proof.
  unfold straightScore. rewrite !straight_loop_scan. apply straight_scan_ext.
  intros f Hf. apply hit_same. unfold faces, faces_desc in *. cbn [In] in *. tauto.
Qed.

Lemma FaceCounts_same : FaceCounts h = FaceCounts h'.
Proof.
  rewrite !FaceCounts_tally. apply map_ext_in. intros f Hf.
  unfold tally, suits. cbn [fold_right].
  fold (held h 0 f) (held h 1 f) (held h 2 f) (held h 3 f).
  fold (held h' 0 f) (held h' 1 f) (held h' 2 f) (held h' 3 f).
  rewrite !(fun s Hs => held_same s f Hs Hf) by (unfold suits; cbn [In]; tauto).
  reflexivity.
Qed.

(** X30. Two registers that hold the same cards of the deck have the same
    [Score] and the same [Describe]: the bits from 52 up, which [AddCard]
    can set, are never looked at. *)
Theorem Score_Describe_same_cards : Score h = Score h' /\ Describe h = Describe h'.
Proof.
  unfold Score, Describe.
  rewrite straightFlushScore_same, flushScore_same, straightScore_same, FaceCounts_same.
  split; reflexivity.
Qed.

End SameDeckCards.

Lemma Score_Describe_same_cards_witness :
  Score (AddCard royal_spades 60) = Score royal_spades /\
  Describe (AddCard royal_spades 60) = Describe royal_spades.
Proof.
  apply (Score_Describe_same_cards (AddCard royal_spades 60) royal_spades).
  intros c Hc. rewrite HasCard_AddCard_gen by lia.
  destruct (Z.eqb_spec 60 c) as [E|N]; [lia | reflexivity].
Defined.
